(** * IndicXlit transliteration server: request dispatch, caching, limits

    A shallow embedding of [app/ai4bharat/transliteration/xlit_server.py]:
    the three transliteration handlers ([xlit_api], [reverse_xlit_api],
    [ulca_api]), the Redis cache they talk to, the engine they call and the
    rate-limit decorators in front of them.

    Python values are modelled as follows.
    - [str] is a list of Unicode code points ([list N]); slicing [s[:n]] is
      [take n s].
    - [bytes] is a list of octets ([list N], each below 256).
    - exceptions are an outcome of the handler monad ([Raised]).
    - the global Redis client and the calls made to the engine live in an
      explicit [World] threaded through every handler.
    - [jsonify] runs the JSON encoder of the framework, which
      [app.config["JSON_AS_ASCII"] = False] sets up to write text as it is
      where the framework reads that key; the handlers take the resulting
      [ensure_ascii] as a parameter, and [jsonify] raises where the body
      cannot be encoded.
    - a JSON body of [POST /transliterate] is taken well-typed where the
      code does not test it: every item has a string [source], [config]
      has its [language] strings, [isSentence] is a boolean and
      [numSuggestions] an integer when present. *)

From Stdlib Require Import ZArith NArith String Ascii Lia.
From stdpp Require Import base option list gmap sorting.

Local Open Scope N_scope.

(** ** Python builtins used by the server *)

Module Py.

  (** An ASCII literal of the source, as code points. *)
Definition lit (s : string) : list N :=
    N_of_ascii <$> list_ascii_of_string s.

  (** [str.isspace] on one code point (CPython's whitespace table). *)
Definition isspace (c : N) : bool :=
    ((0x09 <=? c) && (c <=? 0x0D)) || ((0x1C <=? c) && (c <=? 0x20))
    || (c =? 0x85) || (c =? 0xA0) || (c =? 0x1680)
    || ((0x2000 <=? c) && (c <=? 0x200A))
    || (c =? 0x2028) || (c =? 0x2029) || (c =? 0x202F) || (c =? 0x205F)
    || (c =? 0x3000).

Fixpoint lstrip (s : list N) : list N :=
    match s with
    | c :: r => if isspace c then lstrip r else s
    | [] => []
    end.

Definition rstrip (s : list N) : list N := reverse (lstrip (reverse s)).

  (** [s.strip()] *)
Definition strip (s : list N) : list N := rstrip (lstrip s).

  (** *** [str.encode("utf-8")] and [bytes.decode("utf-8")] (strict) *)

Definition is_surrogate (c : N) : bool := (0xD800 <=? c) && (c <=? 0xDFFF).

Definition encode_char (c : N) : option (list N) :=
    if c <? 0x80 then Some [c]
    else if c <? 0x800 then Some [0xC0 + c / 64; 0x80 + c mod 64]
    else if c <? 0x10000 then
      if is_surrogate c then None
      else Some [0xE0 + c / 4096; 0x80 + (c / 64) mod 64; 0x80 + c mod 64]
    else if c <? 0x110000 then
      Some [0xF0 + c / 262144; 0x80 + (c / 4096) mod 64;
            0x80 + (c / 64) mod 64; 0x80 + c mod 64]
    else None.

  (** [None] stands for [UnicodeEncodeError]. *)
Fixpoint encode (s : list N) : option (list N) :=
    match s with
    | [] => Some []
    | c :: r =>
        match encode_char c, encode r with
        | Some b, Some bs => Some (b ++ bs)
        | _, _ => None
        end
    end.

(** Unicode scalar values: the code points of well-formed text. *)
Definition is_scalar (c : N) : bool := (c <? 0x110000) && negb (is_surrogate c).

Definition well_formed (s : list N) : bool := forallb is_scalar s.

Definition is_cont (b : N) : bool := (0x80 <=? b) && (b <? 0xC0).

Definition payload (b : N) : N := b - 0x80.

  (** [None] stands for [UnicodeDecodeError]. *)
Fixpoint decode (bs : list N) : option (list N) :=
    match bs with
    | [] => Some []
    | b0 :: r =>
        if b0 <? 0x80 then cons b0 <$> decode r
        else if b0 <? 0xC0 then None
        else if b0 <? 0xE0 then
          match r with
          | b1 :: r1 =>
              let c := (b0 - 0xC0) * 64 + payload b1 in
              if is_cont b1 && (0x80 <=? c) then cons c <$> decode r1
              else None
          | _ => None
          end
        else if b0 <? 0xF0 then
          match r with
          | b1 :: b2 :: r2 =>
              let c := (b0 - 0xE0) * 4096 + payload b1 * 64 + payload b2 in
              if is_cont b1 && is_cont b2 && (0x800 <=? c)
                 && negb (is_surrogate c)
              then cons c <$> decode r2
              else None
          | _ => None
          end
        else if b0 <? 0xF8 then
          match r with
          | b1 :: b2 :: b3 :: r3 =>
              let c := (b0 - 0xF0) * 262144 + payload b1 * 4096
                       + payload b2 * 64 + payload b3 in
              if is_cont b1 && is_cont b2 && is_cont b3
                 && (0x10000 <=? c) && (c <? 0x110000)
              then cons c <$> decode r3
              else None
          | _ => None
          end
        else None
    end.

  (** *** [json.dumps] on a list of strings (default options:
      [ensure_ascii=True], separators [", "]) *)

Definition hexdigit (d : N) : N := if d <? 10 then 48 + d else 87 + d.

  (** ['{0:04x}'.format(n)] for [n < 0x10000] *)
Definition hex4 (n : N) : list N :=
    [hexdigit (n / 4096 mod 16); hexdigit (n / 256 mod 16);
     hexdigit (n / 16 mod 16); hexdigit (n mod 16)].

Definition u_escape (n : N) : list N := 92 :: 117 :: hex4 n.

  (** One character of [py_encode_basestring_ascii]: the short escapes of
      [ESCAPE_DCT], printable ASCII as it is, [\uXXXX] otherwise, with a
      surrogate pair above the BMP. *)
Definition escape_char (c : N) : list N :=
    if c =? 92 then [92; 92]
    else if c =? 34 then [92; 34]
    else if c =? 8 then [92; 98]
    else if c =? 12 then [92; 102]
    else if c =? 10 then [92; 110]
    else if c =? 13 then [92; 114]
    else if c =? 9 then [92; 116]
    else if (32 <=? c) && (c <=? 126) then [c]
    else if c <? 0x10000 then u_escape c
    else
      let n := c - 0x10000 in
      u_escape (0xD800 + (n / 1024) mod 1024) ++ u_escape (0xDC00 + n mod 1024).

Definition dumps_str (s : list N) : list N :=
    34 :: (s ≫= escape_char) ++ [34].

Fixpoint join (sep : list N) (l : list (list N)) : list N :=
    match l with
    | [] => []
    | [x] => x
    | x :: r => x ++ sep ++ join sep r
    end.

Definition json_dumps (l : list (list N)) : list N :=
    91 :: join [44; 32] (dumps_str <$> l) ++ [93].

End Py.

(** ** The outside world: engine, Redis, and the handler monad *)

(** [class XlitError(enum.Enum)] *)
Inductive XlitError :=
| lang_err | string_err | internal_err | unknown_err | loading_err.

(** [XlitError.value] *)
Definition XlitError_value (e : XlitError) : list N :=
  match e with
  | lang_err =>
      Py.lit "Unsupported langauge ID requested ;( Please check available languages."
  | string_err => Py.lit "String passed is incompatable ;("
  | internal_err => Py.lit "Internal crash ;("
  | unknown_err => Py.lit "Unknown Failure"
  | loading_err =>
      Py.lit "Loading failed ;( Check if metadata/paths are correctly configured."
  end.

(** What a call into [XlitEngine] can do: return a value, return an
    [XlitError] member, or raise. *)
Inductive EngineResult (A : Type) :=
| Gives (a : A)
| Fails (e : XlitError)
| Raises.
Arguments Gives {A} a.
Arguments Fails {A} e.
Arguments Raises {A}.

(** The part of [xlit_src.XlitEngine] the server uses. [numerals] is [None]
    when the caller does not pass [transliterate_numerals]. *)
Record XlitEngine := {
  all_supported_langs : gset (list N);
  translit_word :
    list N -> list N -> Z -> option bool -> EngineResult (list (list N));
  translit_sentence : list N -> list N -> EngineResult (list N);
}.

(** Keys of the [ENGINE] dictionary. *)
Inductive Direction := en2indic | indic2en.

Definition MAX_SUGGESTIONS : Z := 8.
Definition DEFAULT_NUM_SUGGESTIONS : Z := 5.

Inductive PyExn :=
| EngineException      (* whatever the engine raised *)
| TypeError | IndexError | AttributeError
| UnicodeEncodeError | UnicodeDecodeError
| ConnectionError.     (* redis.exceptions.ConnectionError *)

(** Calls that leave the process, in the order they are made. *)
Inductive Event :=
| RedisGet (key : list N)
| RedisSet (key value : list N)
| TranslitWord (d : Direction) (text lang : list N) (topk : Z)
               (numerals : option bool)
| TranslitSentence (d : Direction) (text lang : list N).

(** The Redis server behind the module-level client [r]: its contents, and
    for each coming call whether the backend is unreachable ([true]); an
    exhausted list means no further outage. *)
Record Redis := {
  db : gmap (list N) (list N);
  outages : list bool;
}.

Record World := {
  redis : Redis;
  calls : list Event;
}.

Inductive Outcome (A : Type) :=
| Returned (a : A)
| Raised (e : PyExn).
Arguments Returned {A} a.
Arguments Raised {A} e.

Definition M (A : Type) : Type := World -> Outcome A * World.

#[global] Instance M_ret : MRet M := fun A a w => (Returned a, w).

#[global] Instance M_bind : MBind M := fun A B f m w =>
  match m w with
  | (Returned a, w') => f a w'
  | (Raised e, w') => (Raised e, w')
  end.

Definition raise {A} (e : PyExn) : M A := fun w => (Raised e, w).

(** [try: m  except Exception: h] *)
Definition try_except {A} (m : M A) (h : PyExn -> M A) : M A := fun w =>
  match m w with
  | (Raised e, w') => h e w'
  | ok => ok
  end.

Definition record_call (ev : Event) (w : World) : World :=
  {| redis := redis w; calls := calls w ++ [ev] |}.

Definition next_outage (rd : Redis) : bool * Redis :=
  match outages rd with
  | [] => (false, rd)
  | o :: rest => (o, {| db := db rd; outages := rest |})
  end.

(** [r.get(key)] *)
Definition r_get (key : list N) : M (option (list N)) := fun w =>
  let w := record_call (RedisGet key) w in
  let '(down, rd) := next_outage (redis w) in
  let w := {| redis := rd; calls := calls w |} in
  if down then (Raised ConnectionError, w)
  else (Returned (db rd !! key), w).

(** [r.set(key, value)] *)
Definition r_set (key value : list N) : M unit := fun w =>
  let w := record_call (RedisSet key value) w in
  let '(down, rd) := next_outage (redis w) in
  if down then (Raised ConnectionError, {| redis := rd; calls := calls w |})
  else (Returned tt,
        {| redis := {| db := <[key := value]> (db rd); outages := outages rd |};
           calls := calls w |}).

(** [s.encode("utf-8")] and [b.decode("utf-8")] *)
Definition str_encode (s : list N) : M (list N) :=
  match Py.encode s with
  | Some b => mret b
  | None => raise UnicodeEncodeError
  end.

Definition bytes_decode (b : list N) : M (list N) :=
  match Py.decode b with
  | Some s => mret s
  | None => raise UnicodeDecodeError
  end.

(** A call returns either the value or an [XlitError] member ([inl]). *)
Definition call_engine {A} (ev : Event) (res : EngineResult A)
  : M (XlitError + A) := fun w =>
  let w := record_call ev w in
  match res with
  | Gives a => (Returned (inr a), w)
  | Fails e => (Returned (inl e), w)
  | Raises => (Raised EngineException, w)
  end.

Section Engine.
Variable ENGINE : Direction -> XlitEngine.

Definition engine_translit_word (d : Direction) (text lang : list N)
      (topk : Z) (numerals : option bool) : M (XlitError + list (list N)) :=
    call_engine (TranslitWord d text lang topk numerals)
                (translit_word (ENGINE d) text lang topk numerals).

Definition engine_translit_sentence (d : Direction) (text lang : list N)
    : M (XlitError + list N) :=
    call_engine (TranslitSentence d text lang)
                (translit_sentence (ENGINE d) text lang).
End Engine.

(** ** Requests and responses *)

(** What the handlers read from [flask.request] and from the clock. *)
Record Request := {
  args : list (list N * list N);       (* query string, in order *)
  x_forwarded_for : option (list N);   (* the X-Forwarded-For header *)
  remote_addr : option (list N);
  utcnow : list N;                     (* str(datetime.utcnow()) *)
  time_ms : N;                         (* arrival time, in milliseconds *)
}.

(** [request.args.get(name, default=d, type=conv)]: the first value of
    [name], converted; [d] when absent or when the conversion raises
    [ValueError] ([conv] gives [None]). *)
Definition args_get {A} (rq : Request) (name : list N) (d : A)
    (conv : list N -> option A) : A :=
  match list_find (fun kv => kv.1 = name) (args rq) with
  | Some (_, (_, v)) => default d (conv v)
  | None => d
  end.

(** [get_remote_address] *)
Definition get_remote_address (rq : Request) : list N :=
  match from_option Some (remote_addr rq) (x_forwarded_for rq) with
  | Some (c :: s) => c :: s
  | _ => Py.lit "127.0.0.1"
  end.

(** The [result] field starts as the empty string and becomes the
    candidate list on success. *)
Inductive ResultField :=
| result_empty
| result_list (l : list (list N)).

Record Envelope := {
  success : bool;
  error : list N;
  at_ : list N;
  input_ : list N;
  result : ResultField;
}.

(** [{ "source": ..., "target": ... }]; [target] is absent in a request. *)
Record Item := {
  source : list N;
  target : option (list (list N));
}.

Record Language := {
  sourceLanguage : list N;
  targetLanguage : list N;
}.

Record Config := {
  language : Language;
  isSentence : option bool;
  numSuggestions : option Z;
}.

(** The JSON body of [POST /transliterate]; the two top-level fields may be
    missing. *)
Record Body := {
  input : option (list Item);
  config : option Config;
}.

Inductive ResponseBody :=
| envelope_json (e : Envelope)
| status_json (statusCode : Z) (message : list N)
| output_json (output : list Item)
| error_page.          (* the framework's own page for an aborted request *)

Record HttpResponse := {
  http_status : Z;
  http_body : ResponseBody;
}.

(** The response [jsonify] builds when it returns: status 200, the
    envelope as its JSON body. *)
Definition json_response (e : Envelope) : HttpResponse :=
  {| http_status := 200; http_body := envelope_json e |}.

(** Whether [s.encode("utf-8")] returns. *)
Definition utf8_encodable (s : list N) : bool :=
  match Py.encode s with
  | Some _ => true
  | None => false
  end.

(** Whether the text of the envelope can go out as UTF-8. Only a candidate
    of the engine can stand in the way: the word is cut out of the URL,
    where bytes that do not decode have been replaced, the date is ASCII,
    [str()] of a set escapes what does not print, and the messages are
    constants. *)
Definition encodable_envelope (e : Envelope) : bool :=
  match result e with
  | result_empty => true
  | result_list l => forallb utf8_encodable l
  end.

(** ** Rate limiting *)

(** A parsed limit string: ["5/second"] is 5 hits per 1000 ms. *)
Record Limit := {
  amount : N;
  period_ms : N;
}.

Definition five_per_second : Limit := {| amount := 5; period_ms := 1000 |}.

(** Modelled from the spec: the bucket [{clientIdentity, windowStart,
    count}] of the limiter's storage, which is not part of this repository;
    the client identity is the key the bucket is stored under, times are in
    milliseconds. *)
Record RateLimitBucket := {
  windowStart : N;
  count : N;
}.

(** Modelled from the spec: the [flask_limiter] window counter, which is not
    part of this repository. One bucket [{windowStart, count}] per key; a
    hit inside the bucket's window increments the count, a hit after the
    window has ended resets the bucket to start at that hit; the hit is
    allowed when the count does not exceed the limit's amount. *)
Definition hit (lim : Limit) (key : list N * list N) (now : N)
    (st : gmap (list N * list N) RateLimitBucket)
  : bool * gmap (list N * list N) RateLimitBucket :=
  let b :=
    match st !! key with
    | Some b =>
        if now <? windowStart b + period_ms lim
        then {| windowStart := windowStart b; count := count b + 1 |}
        else {| windowStart := now; count := 1 |}
    | None => {| windowStart := now; count := 1 |}
    end in
  (count b <=? amount lim, <[key := b]> st).

(** The routes of the application, and the [@limiter.limit] decorator each
    one carries ([Limiter] is built without default limits). *)
Inductive Endpoint :=
| languages_route        (* /languages: supported_languages *)
| tl_route               (* /tl/<lang_code>/<eng_word>: xlit_api *)
| rtl_route              (* /rtl/<lang_code>/<word>: reverse_xlit_api *)
| transliterate_route.   (* /transliterate: ulca_api *)

Definition endpoint_name (ep : Endpoint) : list N :=
  match ep with
  | languages_route => Py.lit "supported_languages"
  | tl_route => Py.lit "xlit_api"
  | rtl_route => Py.lit "reverse_xlit_api"
  | transliterate_route => Py.lit "ulca_api"
  end.

Definition route_limit (ep : Endpoint) : option Limit :=
  match ep with
  | tl_route | rtl_route => Some five_per_second
  | languages_route | transliterate_route => None
  end.

(** Modelled from the spec: [allow(clientIdentity) -> bool], the limiter's
    decision in front of a view function ([flask_limiter] is not part of
    this repository). A route without a decorator lets everything through
    and leaves the storage alone; a decorated route counts the hit under the
    route's name and the key function of the source, [get_remote_address]. *)
Definition allow (ep : Endpoint) (rq : Request)
    (st : gmap (list N * list N) RateLimitBucket)
  : bool * gmap (list N * list N) RateLimitBucket :=
  match route_limit ep with
  | Some lim => hit lim (endpoint_name ep, get_remote_address rq) (time_ms rq) st
  | None => (true, st)
  end.

(** Admission decisions for a sequence of arrivals, in order. *)
Fixpoint admissions (reqs : list (Endpoint * Request))
    (st : gmap (list N * list N) RateLimitBucket) : list bool :=
  match reqs with
  | [] => []
  | (ep, rq) :: rest =>
      let '(ok, st') := allow ep rq st in
      ok :: admissions rest st'
  end.

#[global] Instance Endpoint_eq_dec : EqDecision Endpoint.
Proof. solve_decision. Defined.

(** The decisions, among those of [admissions], that concern the arrivals
    at route [ep] from the client identity [id]. *)
Fixpoint admissions_for (ep : Endpoint) (id : list N)
    (reqs : list (Endpoint * Request))
    (st : gmap (list N * list N) RateLimitBucket) : list bool :=
  match reqs with
  | [] => []
  | (ep', rq) :: rest =>
      let '(ok, st') := allow ep' rq st in
      if decide (ep' = ep ∧ get_remote_address rq = id)
      then ok :: admissions_for ep id rest st'
      else admissions_for ep id rest st'
  end.

(** Modelled from the spec: a rejected hit is answered with a status of its
    own, HTTP 429 in [flask_limiter]. *)
Definition too_many_requests : HttpResponse :=
  {| http_status := 429; http_body := error_page |}.

(** ** The handlers *)

Section Server.

(** The [ensure_ascii] the framework's JSON encoder runs with.
    [app.config["JSON_AS_ASCII"] = False] asks for [false]; Flask before 2.3
    reads the key, Flask from 2.3 on ignores it and keeps [true]. The source
    does not pin the version, so both are covered. *)
Variable ensure_ascii : bool.

(** Builtins left abstract: [str.lower], [int(str)] ([None] on
    [ValueError]) and [str()] of a set of language codes. *)
Variable str_lower : list N -> list N.
Variable int_of_str : list N -> option Z.
Variable str_of_langs : gset (list N) -> list N.

Variable ENGINE : Direction -> XlitEngine.

Definition initial_response (rq : Request) (word : list N) : Envelope :=
  {| success := false;
     error := [];
     at_ := utcnow rq ++ Py.lit " +0000 UTC";
     input_ := Py.strip word;
     result := result_empty |}.

Definition set_error (e : Envelope) (msg : list N) : Envelope :=
  {| success := success e; error := msg; at_ := at_ e; input_ := input_ e;
     result := result e |}.

Definition set_result (e : Envelope) (l : list (list N)) : Envelope :=
  {| success := true; error := error e; at_ := at_ e; input_ := input_ e;
     result := result_list l |}.

Definition invalid_scheme (d : Direction) : list N :=
  Py.lit "Invalid scheme identifier. Supported languages are: "
  ++ str_of_langs (all_supported_langs (ENGINE d)).

(** [jsonify(response)]. With [ensure_ascii] every character outside ASCII
    is escaped and the body always encodes; without it the text is written
    as it is, and encoding the body raises inside [jsonify] on text that
    UTF-8 cannot encode. *)
Definition jsonify (e : Envelope) : M HttpResponse :=
  if ensure_ascii || encodable_envelope e
  then mret (json_response e)
  else raise UnicodeEncodeError.

(** The tail shared by both word handlers: an [XlitError] value goes to
    [error], anything else to [result]. (The [print] of the traceback only
    writes to stdout.) *)
Definition finish_response (response : Envelope)
    (xlit_result : XlitError + list (list N)) : Envelope :=
  match xlit_result with
  | inl e => set_error response (XlitError_value e)
  | inr l => set_result response l
  end.

(** [GET /tl/<lang_code>/<eng_word>] *)
Definition xlit_api (rq : Request) (lang_code eng_word : list N)
  : M HttpResponse :=
  let response := initial_response rq eng_word in
  let transliterate_numerals :=
    args_get rq (Py.lit "transliterate_numerals") false
      (fun v => Some (bool_decide (str_lower v = Py.lit "true"))) in
  let num_suggestions :=
    args_get rq (Py.lit "num_suggestions") DEFAULT_NUM_SUGGESTIONS int_of_str in
  if bool_decide (lang_code ∉ all_supported_langs (ENGINE en2indic)) then
    jsonify (set_error response (invalid_scheme en2indic))
  else
    xlit_result ←
      try_except
        (engine_translit_word ENGINE en2indic (take 70 eng_word) lang_code
           num_suggestions (Some transliterate_numerals))
        (fun _ => mret (inl internal_err));
    jsonify (finish_response response xlit_result).

(** [GET /rtl/<lang_code>/<word>] *)
Definition reverse_xlit_api (rq : Request) (lang_code word : list N)
  : M HttpResponse :=
  let response := initial_response rq word in
  if bool_decide (lang_code ∉ all_supported_langs (ENGINE indic2en)) then
    jsonify (set_error response (invalid_scheme indic2en))
  else
    let num_suggestions :=
      args_get rq (Py.lit "num_suggestions") DEFAULT_NUM_SUGGESTIONS
        int_of_str in
    xlit_result ←
      try_except
        (engine_translit_word ENGINE indic2en (take 70 word) lang_code
           num_suggestions None)
        (fun _ => mret (inl internal_err));
    jsonify (finish_response response xlit_result).

(** The cache key of one batch item. *)
Definition cache_key (item : Item) (lang : Language) : list N :=
  Py.json_dumps [source item; sourceLanguage lang; targetLanguage lang].

Definition set_target (item : Item) (t : list (list N)) : Item :=
  {| source := source item; target := Some t |}.

(** The body of the [for item in data["input"]] loop. An [XlitError]
    returned by the engine is not a list (word branch: [TypeError] on
    [[0]]) and has no [encode] (sentence branch: [AttributeError]); an empty
    candidate list has no element 0 ([IndexError]). *)
Definition ulca_item (d : Direction) (lang : Language) (lang_code : list N)
    (is_sentence : bool) (num_suggestions : Z) (item : Item) : M Item :=
  let key := cache_key item lang in
  value ← r_get key;
  match value with
  | Some v =>
      s ← bytes_decode v;
      mret (set_target item [s])
  | None =>
      if is_sentence then
        x ← engine_translit_sentence ENGINE d (source item) lang_code;
        match x with
        | inr s =>
            b ← str_encode s;
            _ ← r_set key b;
            mret (set_target item [s])
        | inl _ => raise AttributeError
        end
      else
        let item := {| source := take 32 (source item);
                       target := target item |} in
        x ← engine_translit_word ENGINE d (source item) lang_code
              num_suggestions None;
        match x with
        | inr (c :: l) =>
            b ← str_encode c;
            _ ← r_set key b;
            mret (set_target item (c :: l))
        | inr [] => raise IndexError
        | inl _ => raise TypeError
        end
  end.

(** [for item in items: body(item)], with the items updated in place. *)
Fixpoint for_each (body : Item -> M Item) (items : list Item)
  : M (list Item) :=
  match items with
  | [] => mret []
  | item :: rest =>
      item' ← body item;
      rest' ← for_each body rest;
      mret (item' :: rest')
  end.

Definition supported_pair (lang : Language) : bool :=
  (bool_decide (sourceLanguage lang = Py.lit "en")
   && bool_decide (targetLanguage lang ∈ all_supported_langs (ENGINE en2indic)))
  || (bool_decide (sourceLanguage lang ∈ all_supported_langs (ENGINE indic2en))
      && bool_decide (targetLanguage lang = Py.lit "en")).

Definition ulca_is_sentence (cfg : Config) : bool :=
  default false (isSentence cfg).

Definition ulca_num_suggestions (cfg : Config) : Z :=
  if ulca_is_sentence cfg then 1 else default 5%Z (numSuggestions cfg).

Definition ulca_engine (lang : Language) : Direction * list N :=
  if bool_decide (targetLanguage lang = Py.lit "en")
  then (indic2en, sourceLanguage lang)
  else (en2indic, targetLanguage lang).

(** The loop body under the settings read from [data["config"]]. *)
Definition ulca_body (cfg : Config) : Item -> M Item :=
  let lang := language cfg in
  let is_sentence := ulca_is_sentence cfg in
  let num_suggestions := ulca_num_suggestions cfg in
  let '(engine, lang_code) := ulca_engine lang in
  ulca_item engine lang lang_code is_sentence num_suggestions.

(** [POST /transliterate] *)
Definition ulca_api (data : Body) : M HttpResponse :=
  match input data, config data with
  | Some items, Some cfg =>
      if supported_pair (language cfg) then
        out ← for_each (ulca_body cfg) items;
        mret {| http_status := 200; http_body := output_json out |}
      else
        mret {| http_status := 501;
                http_body :=
                  status_json 501
                    (Py.lit "The mentioned language-pair is not supported yet.") |}
  | _, _ =>
      mret {| http_status := 400;
              http_body :=
                status_json 400
                  (Py.lit "Ensure `input` and `config` fields missing.") |}
  end.

(** A routed call to one of the three transliteration handlers. *)
Inductive Call :=
| tl (lang_code eng_word : list N)
| rtl (lang_code word : list N)
| transliterate (data : Body).

Definition endpoint_of (c : Call) : Endpoint :=
  match c with
  | tl _ _ => tl_route
  | rtl _ _ => rtl_route
  | transliterate _ => transliterate_route
  end.

Definition handler (c : Call) (rq : Request) : M HttpResponse :=
  match c with
  | tl lang_code eng_word => xlit_api rq lang_code eng_word
  | rtl lang_code word => reverse_xlit_api rq lang_code word
  | transliterate data => ulca_api data
  end.

Record Server := {
  limiter : gmap (list N * list N) RateLimitBucket;
  world : World;
}.

(** One request through the decorated view function: the limiter first,
    the handler only when the hit is allowed. *)
Definition serve (c : Call) (rq : Request) (s : Server)
  : Outcome HttpResponse * Server :=
  let '(ok, lim) := allow (endpoint_of c) rq (limiter s) in
  if ok then
    let '(out, w) := handler c rq (world s) in
    (out, {| limiter := lim; world := w |})
  else
    (Returned too_many_requests, {| limiter := lim; world := world s |}).

End Server.

(** ** A small concrete deployment, used to run the handlers *)

Module Demo.

Definition langs : gset (list N) := {[ Py.lit "ta"; Py.lit "hi" ]}.

(** An engine that raises on the text [boom], returns an [XlitError] member
    on [bad], and otherwise ranks three made-up candidates, cut to [topk]. *)
Definition engine : XlitEngine :=
  {| all_supported_langs := langs;
     translit_word := fun text lang topk numerals =>
       if bool_decide (text = Py.lit "boom") then Raises
       else if bool_decide (text = Py.lit "bad") then Fails string_err
       else Gives (take (Z.to_nat topk)
                     [text ++ Py.lit "-1"; text ++ Py.lit "-2";
                      text ++ Py.lit "-3"]);
     translit_sentence := fun text lang =>
       if bool_decide (text = Py.lit "boom") then Raises
       else if bool_decide (text = Py.lit "bad") then Fails string_err
       else Gives (text ++ Py.lit "!") |}.

(** The same languages, but every call raises: the engine is unavailable. *)
Definition engine_down : XlitEngine :=
  {| all_supported_langs := langs;
     translit_word := fun _ _ _ _ => Raises;
     translit_sentence := fun _ _ => Raises |}.

Definition ENGINE (d : Direction) : XlitEngine := engine.
Definition ENGINE_down (d : Direction) : XlitEngine := engine_down.

(** Stand-ins for the abstract builtins: ASCII lower-casing, decimal
    literals, and a fixed rendering of the language set. *)
Definition lower (s : list N) : list N :=
  (fun c => if (65 <=? c) && (c <=? 90) then c + 32 else c) <$> s.

Fixpoint digits (acc : Z) (s : list N) : option Z :=
  match s with
  | [] => Some acc
  | c :: r =>
      if (48 <=? c) && (c <=? 57)
      then digits (10 * acc + Z.of_N (c - 48)) r
      else None
  end.

Definition int (s : list N) : option Z :=
  match s with
  | [] => None
  | _ => digits 0 s
  end.

Definition str_of_set (langs : gset (list N)) : list N :=
  Py.lit "{'hi', 'ta'}".

Definition empty_world : World :=
  {| redis := {| db := ∅; outages := [] |}; calls := [] |}.

Definition request (q : list (list N * list N)) : Request :=
  {| args := q; x_forwarded_for := None; remote_addr := None;
     utcnow := Py.lit "2022-04-09 00:00:00.000000"; time_ms := 0 |}.

Definition from (ip : string) (t : N) : Request :=
  {| args := []; x_forwarded_for := None; remote_addr := Some (Py.lit ip);
     utcnow := Py.lit "2022-04-09 00:00:00.000000"; time_ms := t |}.

Definition en_hi : Language :=
  {| sourceLanguage := Py.lit "en"; targetLanguage := Py.lit "hi" |}.

Definition item (s : string) : Item :=
  {| source := Py.lit s; target := None |}.

Definition en_xx : Language :=
  {| sourceLanguage := Py.lit "en"; targetLanguage := Py.lit "xx" |}.

Definition settings (lang : Language) (sentence : option bool)
    (k : option Z) : Config :=
  {| language := lang; isSentence := sentence; numSuggestions := k |}.

Definition batch (lang : Language) (items : list Item)
    (sentence : option bool) (k : option Z) : Body :=
  {| input := Some items; config := Some (settings lang sentence k) |}.

End Demo.

(** ** The language list served at [/languages] *)

(** [a <= b] on [str]: code points compared from the left, a proper prefix
    first. This is the order [sorted] puts strings in. *)
Fixpoint str_le (a b : list N) : bool :=
  match a, b with
  | [], _ => true
  | _ :: _, [] => false
  | x :: a', y :: b' =>
      if x <? y then true else if y <? x then false else str_le a' b'
  end.

(** The tables imported from [.utils]; that module is outside the sources
    at hand, so its tables are parameters. Only membership is asked of
    [RTL_LANG_CODES]. *)
Record LangTables := {
  LANG_CODE_TO_DISPLAY_NAME : gmap (list N) (list N);
  RTL_LANG_CODES : gset (list N);
  LANG_CODE_TO_SCRIPT_CODE : gmap (list N) (list N);
  GOOGLE_FONTS : gmap (list N) (list N);
  FALLBACK_FONTS : gmap (list N) (list N);
}.

Module ExposedLang.

(** One dictionary of [EXPOSED_LANGS]. *)
Record t := {
  LangCode : list N;
  Identifier : list N;
  DisplayName : list N;
  Author : list N;
  CompiledDate : list N;
  IsStable : bool;
  Direction : list N;
  ScriptCode : list N;
  GoogleFont : option (list N);
  FallbackFont : option (list N);
}.

End ExposedLang.

Module Cookie.

(** The arguments of [response.set_cookie]. *)
Record t := {
  key : list N;
  value : list N;
  max_age : Z;
  domain : list N;
  samesite : list N;
  secure : bool;
  httponly : bool;
}.

End Cookie.

Record LanguagesResponse := {
  languages_json : list ExposedLang.t;
  set_cookie : option Cookie.t;
}.

Section Languages.

Variable tables : LangTables.
Variable ENGINE : Direction -> XlitEngine.

(** [sorted(ENGINE["en2indic"].all_supported_langs)] *)
Definition sorted_langs : list (list N) :=
  merge_sort (fun a b => Is_true (str_le a b))
    (elements (all_supported_langs (ENGINE en2indic))).

(** The dictionary built for one language code; [None] is the [KeyError]
    of a subscript on a table that lacks the code. *)
Definition exposed_lang (lang_code : list N) : option ExposedLang.t :=
  display ← LANG_CODE_TO_DISPLAY_NAME tables !! lang_code;
  script ← LANG_CODE_TO_SCRIPT_CODE tables !! lang_code;
  Some {| ExposedLang.LangCode := lang_code;
          ExposedLang.Identifier := lang_code;
          ExposedLang.DisplayName := display;
          ExposedLang.Author := Py.lit "AI4Bharat";
          ExposedLang.CompiledDate := Py.lit "09-April-2022";
          ExposedLang.IsStable := true;
          ExposedLang.Direction :=
            if bool_decide (lang_code ∈ RTL_LANG_CODES tables)
            then Py.lit "rtl" else Py.lit "ltr";
          ExposedLang.ScriptCode := script;
          ExposedLang.GoogleFont := GOOGLE_FONTS tables !! lang_code;
          ExposedLang.FallbackFont := FALLBACK_FONTS tables !! lang_code |}.

(** The module-level list comprehension; [None] when it raises [KeyError],
    in which case the module does not load. *)
Definition EXPOSED_LANGS : option (list ExposedLang.t) :=
  mapM exposed_lang sorted_langs.

End Languages.

(** [GET|POST /languages], for the loaded list [exposed], the cookies of the
    request and the value [uuid4().hex] would give. *)
Definition supported_languages (exposed : list ExposedLang.t)
    (cookies : gmap (list N) (list N)) (uuid4_hex : list N)
  : LanguagesResponse :=
  {| languages_json := exposed;
     set_cookie :=
       if bool_decide (Py.lit "xlit_user_id" ∉ dom cookies) then
         Some {| Cookie.key := Py.lit "xlit_user_id";
                 Cookie.value := uuid4_hex;
                 Cookie.max_age := 365 * 24 * 60 * 60;
                 Cookie.domain := Py.lit ".ai4bharat.org";
                 Cookie.samesite := Py.lit "None";
                 Cookie.secure := true;
                 Cookie.httponly := true |}
       else None |}.

(** ** Counting the calls of a log *)

Definition is_engine_call (ev : Event) : bool :=
  match ev with
  | TranslitWord _ _ _ _ _ | TranslitSentence _ _ _ => true
  | _ => false
  end.

Definition is_redis_get (ev : Event) : bool :=
  match ev with RedisGet _ => true | _ => false end.

Definition is_redis_set (ev : Event) : bool :=
  match ev with RedisSet _ _ => true | _ => false end.

Definition count_calls (p : Event -> bool) (l : list Event) : nat :=
  length (filter (fun ev => Is_true (p ev)) l).

(** More of the concrete deployment: language tables with a gap, and an
    engine pair whose Roman-to-Indic side lists [en]. *)
Module Demo2.

Definition tables : LangTables :=
  {| LANG_CODE_TO_DISPLAY_NAME :=
       {[ Py.lit "hi" := Py.lit "Hindi"; Py.lit "ta" := Py.lit "Tamil";
          Py.lit "ur" := Py.lit "Urdu" ]};
     RTL_LANG_CODES := {[ Py.lit "ur" ]};
     LANG_CODE_TO_SCRIPT_CODE :=
       {[ Py.lit "hi" := Py.lit "Deva"; Py.lit "ta" := Py.lit "Taml";
          Py.lit "ur" := Py.lit "Arab" ]};
     GOOGLE_FONTS := {[ Py.lit "hi" := Py.lit "Hind" ]};
     FALLBACK_FONTS := ∅ |}.

Definition engine_ur : XlitEngine :=
  {| all_supported_langs := {[ Py.lit "ur"; Py.lit "hi"; Py.lit "ta" ]};
     translit_word := translit_word Demo.engine;
     translit_sentence := translit_sentence Demo.engine |}.

Definition engine_kn : XlitEngine :=
  {| all_supported_langs := {[ Py.lit "kn"; Py.lit "hi" ]};
     translit_word := translit_word Demo.engine;
     translit_sentence := translit_sentence Demo.engine |}.

Definition engine_en : XlitEngine :=
  {| all_supported_langs := {[ Py.lit "en"; Py.lit "hi" ]};
     translit_word := translit_word Demo.engine;
     translit_sentence := translit_sentence Demo.engine |}.

Definition ENGINE_ur (d : Direction) : XlitEngine := engine_ur.
Definition ENGINE_kn (d : Direction) : XlitEngine := engine_kn.

(** [en] is listed by the Roman-to-Indic engine only. *)
Definition ENGINE_en (d : Direction) : XlitEngine :=
  match d with
  | en2indic => engine_en
  | indic2en => Demo.engine
  end.

(** An engine that answers every call with the same encodable text, and one
    whose only candidate is a lone surrogate, which UTF-8 cannot encode. *)
Definition engine_ok : XlitEngine :=
  {| all_supported_langs := Demo.langs;
     translit_word := fun _ _ _ _ => Gives [Py.lit "ok"; Py.lit "okay"];
     translit_sentence := fun _ _ => Gives (Py.lit "ok") |}.

Definition engine_odd : XlitEngine :=
  {| all_supported_langs := Demo.langs;
     translit_word := fun _ _ _ _ => Gives [[0xD800]];
     translit_sentence := fun _ _ => Gives [0xD800] |}.

Definition ENGINE_ok (d : Direction) : XlitEngine := engine_ok.
Definition ENGINE_odd (d : Direction) : XlitEngine := engine_odd.

Definition en_en : Language :=
  {| sourceLanguage := Py.lit "en"; targetLanguage := Py.lit "en" |}.

Definition hi_en : Language :=
  {| sourceLanguage := Py.lit "hi"; targetLanguage := Py.lit "en" |}.

End Demo2.

(** * Facts *)

(** ** Running the handlers on the concrete deployment *)

Example json_dumps_example :
  Py.json_dumps [Py.lit "bharat"; Py.lit "en"; Py.lit "hi"]
  = [91; 34] ++ Py.lit "bharat" ++ [34; 44; 32; 34] ++ Py.lit "en"
    ++ [34; 44; 32; 34] ++ Py.lit "hi" ++ [34; 93].
Proof. reflexivity. Qed.

Example utf8_example :
  Py.encode [0x905; 0x41; 0x1F600] = Some [0xE0; 0xA4; 0x85; 0x41; 0xF0; 0x9F; 0x98; 0x80]
  /\ Py.decode [0xE0; 0xA4; 0x85; 0x41; 0xF0; 0x9F; 0x98; 0x80] = Some [0x905; 0x41; 0x1F600].
Proof. split; reflexivity. Qed.

Example tl_amma :
  (xlit_api false Demo.lower Demo.int Demo.str_of_set Demo.ENGINE
     (Demo.request []) (Py.lit "ta") (Py.lit "amma") Demo.empty_world).1
  = Returned
      (json_response
         {| success := true; error := [];
            at_ := Py.lit "2022-04-09 00:00:00.000000 +0000 UTC";
            input_ := Py.lit "amma";
            result := result_list
                        [Py.lit "amma-1"; Py.lit "amma-2"; Py.lit "amma-3"] |}).
Proof. vm_compute. reflexivity. Qed.

(** The only candidate of [Demo2.engine_odd] is a lone surrogate. Where the
    encoder writes text as it is, [jsonify] raises inside the handler, after
    the engine has been called; where it escapes, the request is answered. *)
Example tl_lone_surrogate :
  xlit_api false Demo.lower Demo.int Demo.str_of_set Demo2.ENGINE_odd
    (Demo.request []) (Py.lit "ta") (Py.lit "amma") Demo.empty_world
  = (Raised UnicodeEncodeError,
     {| redis := {| db := ∅; outages := [] |};
        calls := [TranslitWord en2indic (Py.lit "amma") (Py.lit "ta") 5
                    (Some false)] |})
  /\ (reverse_xlit_api false Demo.int Demo.str_of_set Demo2.ENGINE_odd
        (Demo.request []) (Py.lit "ta") (Py.lit "amma") Demo.empty_world).1
     = Raised UnicodeEncodeError
  /\ (xlit_api true Demo.lower Demo.int Demo.str_of_set Demo2.ENGINE_odd
        (Demo.request []) (Py.lit "ta") (Py.lit "amma") Demo.empty_world).1
     = Returned
         (json_response
            {| success := true; error := [];
               at_ := Py.lit "2022-04-09 00:00:00.000000 +0000 UTC";
               input_ := Py.lit "amma";
               result := result_list [[0xD800]] |}).
Proof. vm_compute. repeat split; reflexivity. Qed.

Example transliterate_bharat :
  (ulca_api Demo.ENGINE (Demo.batch Demo.en_hi [Demo.item "bharat"] None None) Demo.empty_world).1
  = Returned
      {| http_status := 200;
         http_body :=
           output_json
             [ {| source := Py.lit "bharat";
                  target := Some [Py.lit "bharat-1"; Py.lit "bharat-2";
                                  Py.lit "bharat-3"] |} ] |}.
Proof. vm_compute. reflexivity. Qed.

(** ** Basic facts about the world and the loop body *)

Lemma bind_unfold {A B} (m : M A) (f : A -> M B) (w : World) :
  (m ≫= f) w
  = match m w with
    | (Returned a, w') => f a w'
    | (Raised e, w') => (Raised e, w')
    end.
Proof. reflexivity. Qed.

Lemma r_get_up key w :
  outages (redis w) = [] ->
  r_get key w
  = (Returned (db (redis w) !! key), record_call (RedisGet key) w).
Proof. destruct w as [[d o] c]; simpl; intros ->; reflexivity. Qed.

Lemma r_get_down key w rest :
  outages (redis w) = true :: rest ->
  r_get key w
  = (Raised ConnectionError,
     {| redis := {| db := db (redis w); outages := rest |};
        calls := calls w ++ [RedisGet key] |}).
Proof. destruct w as [[d o] c]; simpl; intros ->; reflexivity. Qed.

Lemma r_set_up key v w :
  outages (redis w) = [] ->
  r_set key v w
  = (Returned tt,
     {| redis := {| db := <[key := v]> (db (redis w)); outages := [] |};
        calls := calls w ++ [RedisSet key v] |}).
Proof. destruct w as [[d o] c]; simpl; intros ->; reflexivity. Qed.

(** Run the remaining monadic steps of a handler on an explicit world. *)
Ltac run_world :=
  cbv [mbind M_bind mret M_ret raise try_except r_set r_get record_call
       next_outage set_target call_engine];
  cbn [redis calls db outages source target fst snd];
  rewrite <- ?app_assoc; cbn [app].

Section ItemFacts.
Variable ENGINE : Direction -> XlitEngine.
Variables (d : Direction) (lang : Language) (lang_code : list N).

(** A hit: one [get], no engine call, the decoded value as only target. *)
Lemma ulca_item_hit is_sentence k item w b v :
  outages (redis w) = [] ->
  db (redis w) !! cache_key item lang = Some b ->
  Py.decode b = Some v ->
  ulca_item ENGINE d lang lang_code is_sentence k item w
  = (Returned (set_target item [v]),
     record_call (RedisGet (cache_key item lang)) w).
Proof.
  intros Hup Hdb Hdec. unfold ulca_item.
  rewrite bind_unfold, (r_get_up _ _ Hup), Hdb.
  unfold bytes_decode. rewrite Hdec. reflexivity.
Qed.

(** A miss in word mode: the source is cut to 32 characters for the engine,
    the whole ranked list is the target, its head is stored under the key
    of the source as received. *)
Lemma ulca_item_miss_word k item w c l b :
  outages (redis w) = [] ->
  db (redis w) !! cache_key item lang = None ->
  translit_word (ENGINE d) (take 32 (source item)) lang_code k None
  = Gives (c :: l) ->
  Py.encode c = Some b ->
  ulca_item ENGINE d lang lang_code false k item w
  = (Returned {| source := take 32 (source item); target := Some (c :: l) |},
     {| redis := {| db := <[cache_key item lang := b]> (db (redis w));
                    outages := [] |};
        calls := calls w
                 ++ [RedisGet (cache_key item lang);
                     TranslitWord d (take 32 (source item)) lang_code k None;
                     RedisSet (cache_key item lang) b] |}).
Proof.
  intros Hup Hdb Heng Henc. unfold ulca_item.
  rewrite bind_unfold, (r_get_up _ _ Hup), Hdb.
  unfold engine_translit_word, call_engine. cbn [source target].
  rewrite bind_unfold, Heng.
  unfold str_encode. rewrite Henc.
  destruct w as [[dbw o] cs]; simpl in *; subst o.
  run_world. reflexivity.
Qed.

(** A miss in sentence mode: the source goes to the engine as received. *)
Lemma ulca_item_miss_sentence k item w s b :
  outages (redis w) = [] ->
  db (redis w) !! cache_key item lang = None ->
  translit_sentence (ENGINE d) (source item) lang_code = Gives s ->
  Py.encode s = Some b ->
  ulca_item ENGINE d lang lang_code true k item w
  = (Returned (set_target item [s]),
     {| redis := {| db := <[cache_key item lang := b]> (db (redis w));
                    outages := [] |};
        calls := calls w
                 ++ [RedisGet (cache_key item lang);
                     TranslitSentence d (source item) lang_code;
                     RedisSet (cache_key item lang) b] |}).
Proof.
  intros Hup Hdb Heng Henc. unfold ulca_item.
  rewrite bind_unfold, (r_get_up _ _ Hup), Hdb.
  unfold engine_translit_sentence, call_engine.
  rewrite bind_unfold, Heng.
  unfold str_encode. rewrite Henc.
  destruct w as [[dbw o] cs]; simpl in *; subst o.
  run_world. reflexivity.
Qed.

End ItemFacts.

(** ** The loop and the request *)

Lemma r_get_answered key w :
  (next_outage (redis w)).1 = false ->
  r_get key w
  = (Returned (db (redis w) !! key),
     {| redis := (next_outage (redis w)).2;
        calls := calls w ++ [RedisGet key] |}).
Proof.
  destruct w as [[dbw [|[] o]] cs]; cbn; intros H; try discriminate;
    reflexivity.
Qed.

Lemma next_outage_db rd : db (next_outage rd).2 = db rd.
Proof. destruct rd as [dbw [|o os]]; reflexivity. Qed.

Section LoopFacts.
Variable ENGINE : Direction -> XlitEngine.

Lemma for_each_cons body item rest w :
  for_each body (item :: rest) w
  = match body item w with
    | (Returned item', w1) =>
        match for_each body rest w1 with
        | (Returned rest', w2) => (Returned (item' :: rest'), w2)
        | (Raised e, w2) => (Raised e, w2)
        end
    | (Raised e, w1) => (Raised e, w1)
    end.
Proof.
  cbn [for_each]. rewrite bind_unfold. destruct (body item w) as [[a|e] w1]; [|done].
  rewrite bind_unfold. by destruct (for_each body rest w1) as [[a'|e] w2].
Qed.

(** The first item whose body raises ends the loop with that exception. *)
Lemma for_each_raises body pre item post w pre' w1 e w2 :
  for_each body pre w = (Returned pre', w1) ->
  body item w1 = (Raised e, w2) ->
  for_each body (pre ++ item :: post) w = (Raised e, w2).
Proof.
  revert w pre'. induction pre as [|p pre IH]; intros w pre' Hpre Hitem.
  - cbn in Hpre. injection Hpre as <- <-. cbn [app].
    rewrite for_each_cons, Hitem. reflexivity.
  - cbn [app]. rewrite for_each_cons in Hpre |- *.
    destruct (body p w) as [[p'|e'] wp]; [|discriminate].
    destruct (for_each body pre wp) as [[r'|e'] wr] eqn:Hr; [|discriminate].
    injection Hpre as <- <-. by rewrite (IH wp r' Hr Hitem).
Qed.

Lemma ulca_api_loop data items cfg w :
  input data = Some items -> config data = Some cfg ->
  supported_pair ENGINE (language cfg) = true ->
  ulca_api ENGINE data w
  = match for_each (ulca_body ENGINE cfg) items w with
    | (Returned out, w') =>
        (Returned {| http_status := 200; http_body := output_json out |}, w')
    | (Raised e, w') => (Raised e, w')
    end.
Proof.
  intros Hi Hc Hs. unfold ulca_api. rewrite Hi, Hc, Hs, bind_unfold.
  by destruct (for_each _ _ _) as [[out|e] w'].
Qed.

Lemma ulca_body_unfold cfg :
  ulca_body ENGINE cfg
  = ulca_item ENGINE (ulca_engine (language cfg)).1 (language cfg)
      (ulca_engine (language cfg)).2 (ulca_is_sentence cfg)
      (ulca_num_suggestions cfg).
Proof. unfold ulca_body. by destruct (ulca_engine _). Qed.

End LoopFacts.

(** ** The word handlers *)

Section WordFacts.
Variable ensure_ascii : bool.
Variable str_lower : list N -> list N.
Variable int_of_str : list N -> option Z.
Variable str_of_langs : gset (list N) -> list N.
Variable ENGINE : Direction -> XlitEngine.

(** [jsonify] touches neither Redis nor the engine. *)
Lemma jsonify_world e w : (jsonify ensure_ascii e w).2 = w.
Proof. unfold jsonify. by destruct (ensure_ascii || encodable_envelope e). Qed.

Lemma jsonify_returns e w :
  ensure_ascii || encodable_envelope e = true ->
  jsonify ensure_ascii e w = (Returned (json_response e), w).
Proof. intros H. unfold jsonify. by rewrite H. Qed.

Lemma jsonify_raises e w :
  ensure_ascii || encodable_envelope e = false ->
  jsonify ensure_ascii e w = (Raised UnicodeEncodeError, w).
Proof. intros H. unfold jsonify. by rewrite H. Qed.

(** An envelope without candidates always goes out. *)
Lemma jsonify_no_result e w :
  result e = result_empty ->
  jsonify ensure_ascii e w = (Returned (json_response e), w).
Proof.
  intros H. apply jsonify_returns. unfold encodable_envelope. rewrite H.
  apply orb_true_r.
Qed.

(** What [jsonify] returns has status 200. *)
Lemma jsonify_status e w resp :
  (jsonify ensure_ascii e w).1 = Returned resp -> http_status resp = 200%Z.
Proof.
  unfold jsonify. destruct (ensure_ascii || encodable_envelope e); [|done].
  by intros [= <-].
Qed.

Lemma guarded_engine_call d text lang k numerals w :
  try_except (engine_translit_word ENGINE d text lang k numerals)
    (fun _ => mret (inl internal_err)) w
  = (Returned
       match translit_word (ENGINE d) text lang k numerals with
       | Gives l => inr l
       | Fails e => inl e
       | Raises => inl internal_err
       end,
     record_call (TranslitWord d text lang k numerals) w).
Proof.
  unfold try_except, engine_translit_word, call_engine.
  by destruct (translit_word _ _ _ _ _).
Qed.

Lemma xlit_api_unsupported rq lang_code eng_word w :
  lang_code ∉ all_supported_langs (ENGINE en2indic) ->
  xlit_api ensure_ascii str_lower int_of_str str_of_langs ENGINE rq lang_code
    eng_word w
  = (Returned
       (json_response (set_error (initial_response rq eng_word)
                         (invalid_scheme str_of_langs ENGINE en2indic))),
     w).
Proof.
  intros H. unfold xlit_api. rewrite bool_decide_true by done.
  by apply jsonify_no_result.
Qed.

Lemma xlit_api_supported rq lang_code eng_word w :
  lang_code ∈ all_supported_langs (ENGINE en2indic) ->
  let k := args_get rq (Py.lit "num_suggestions") DEFAULT_NUM_SUGGESTIONS
             int_of_str in
  let numerals :=
    Some (args_get rq (Py.lit "transliterate_numerals") false
            (fun v => Some (bool_decide (str_lower v = Py.lit "true")))) in
  xlit_api ensure_ascii str_lower int_of_str str_of_langs ENGINE rq lang_code
    eng_word w
  = jsonify ensure_ascii
      (finish_response (initial_response rq eng_word)
         match translit_word (ENGINE en2indic) (take 70 eng_word) lang_code
                 k numerals with
         | Gives l => inr l
         | Fails e => inl e
         | Raises => inl internal_err
         end)
      (record_call (TranslitWord en2indic (take 70 eng_word) lang_code k numerals)
         w).
Proof.
  intros H k numerals. unfold xlit_api.
  rewrite bool_decide_false by (intros Hn; exact (Hn H)).
  rewrite bind_unfold, guarded_engine_call. reflexivity.
Qed.

Lemma reverse_xlit_api_unsupported rq lang_code word w :
  lang_code ∉ all_supported_langs (ENGINE indic2en) ->
  reverse_xlit_api ensure_ascii int_of_str str_of_langs ENGINE rq lang_code
    word w
  = (Returned
       (json_response (set_error (initial_response rq word)
                         (invalid_scheme str_of_langs ENGINE indic2en))),
     w).
Proof.
  intros H. unfold reverse_xlit_api. rewrite bool_decide_true by done.
  by apply jsonify_no_result.
Qed.

Lemma reverse_xlit_api_supported rq lang_code word w :
  lang_code ∈ all_supported_langs (ENGINE indic2en) ->
  let k := args_get rq (Py.lit "num_suggestions") DEFAULT_NUM_SUGGESTIONS
             int_of_str in
  reverse_xlit_api ensure_ascii int_of_str str_of_langs ENGINE rq lang_code
    word w
  = jsonify ensure_ascii
      (finish_response (initial_response rq word)
         match translit_word (ENGINE indic2en) (take 70 word) lang_code
                 k None with
         | Gives l => inr l
         | Fails e => inl e
         | Raises => inl internal_err
         end)
      (record_call (TranslitWord indic2en (take 70 word) lang_code k None) w).
Proof.
  intros H k. unfold reverse_xlit_api.
  rewrite bool_decide_false by (intros Hn; exact (Hn H)).
  rewrite bind_unfold, guarded_engine_call. reflexivity.
Qed.

(** The world a word handler leaves behind: the engine call added to the
    log when the language is supported, nothing otherwise. *)
Lemma xlit_api_world rq lang_code eng_word w :
  lang_code ∈ all_supported_langs (ENGINE en2indic) ->
  (xlit_api ensure_ascii str_lower int_of_str str_of_langs ENGINE rq lang_code
     eng_word w).2
  = record_call
      (TranslitWord en2indic (take 70 eng_word) lang_code
         (args_get rq (Py.lit "num_suggestions") DEFAULT_NUM_SUGGESTIONS
            int_of_str)
         (Some (args_get rq (Py.lit "transliterate_numerals") false
                  (fun v => Some (bool_decide (str_lower v = Py.lit "true"))))))
      w.
Proof. intros H. by rewrite (xlit_api_supported _ _ _ _ H), jsonify_world. Qed.

Lemma reverse_xlit_api_world rq lang_code word w :
  lang_code ∈ all_supported_langs (ENGINE indic2en) ->
  (reverse_xlit_api ensure_ascii int_of_str str_of_langs ENGINE rq lang_code
     word w).2
  = record_call
      (TranslitWord indic2en (take 70 word) lang_code
         (args_get rq (Py.lit "num_suggestions") DEFAULT_NUM_SUGGESTIONS
            int_of_str)
         None)
      w.
Proof.
  intros H. by rewrite (reverse_xlit_api_supported _ _ _ _ H), jsonify_world.
Qed.

(** A response a word handler returns has status 200. *)
Lemma xlit_api_status rq lang_code eng_word w resp :
  (xlit_api ensure_ascii str_lower int_of_str str_of_langs ENGINE rq lang_code
     eng_word w).1 = Returned resp ->
  http_status resp = 200%Z.
Proof.
  destruct (decide (lang_code ∈ all_supported_langs (ENGINE en2indic))) as [H|H].
  - rewrite (xlit_api_supported _ _ _ _ H). apply jsonify_status.
  - rewrite (xlit_api_unsupported _ _ _ _ H). by intros [= <-].
Qed.

Lemma reverse_xlit_api_status rq lang_code word w resp :
  (reverse_xlit_api ensure_ascii int_of_str str_of_langs ENGINE rq lang_code
     word w).1 = Returned resp ->
  http_status resp = 200%Z.
Proof.
  destruct (decide (lang_code ∈ all_supported_langs (ENGINE indic2en))) as [H|H].
  - rewrite (reverse_xlit_api_supported _ _ _ _ H). apply jsonify_status.
  - rewrite (reverse_xlit_api_unsupported _ _ _ _ H). by intros [= <-].
Qed.

(** An exception of the engine is caught: the handler answers with the
    envelope that reports an internal error. *)
Lemma xlit_api_catches rq lang_code eng_word w :
  lang_code ∈ all_supported_langs (ENGINE en2indic) ->
  translit_word (ENGINE en2indic) (take 70 eng_word) lang_code
    (args_get rq (Py.lit "num_suggestions") DEFAULT_NUM_SUGGESTIONS int_of_str)
    (Some (args_get rq (Py.lit "transliterate_numerals") false
             (fun v => Some (bool_decide (str_lower v = Py.lit "true")))))
  = Raises ->
  (xlit_api ensure_ascii str_lower int_of_str str_of_langs ENGINE rq lang_code
     eng_word w).1
  = Returned
      (json_response
         (set_error (initial_response rq eng_word)
            (XlitError_value internal_err))).
Proof.
  intros H Hr. rewrite (xlit_api_supported _ _ _ _ H). cbv zeta. rewrite Hr.
  by rewrite jsonify_no_result.
Qed.

Lemma reverse_xlit_api_catches rq lang_code word w :
  lang_code ∈ all_supported_langs (ENGINE indic2en) ->
  translit_word (ENGINE indic2en) (take 70 word) lang_code
    (args_get rq (Py.lit "num_suggestions") DEFAULT_NUM_SUGGESTIONS int_of_str)
    None
  = Raises ->
  (reverse_xlit_api ensure_ascii int_of_str str_of_langs ENGINE rq lang_code
     word w).1
  = Returned
      (json_response
         (set_error (initial_response rq word)
            (XlitError_value internal_err))).
Proof.
  intros H Hr. rewrite (reverse_xlit_api_supported _ _ _ _ H). cbv zeta.
  rewrite Hr. by rewrite jsonify_no_result.
Qed.

End WordFacts.

(** ** The codecs: UTF-8 round trip and injectivity of the JSON key *)

Ltac lia_div := zify; Z.to_euclidean_division_equations; lia.

Ltac split_tests :=
  repeat match goal with
  | |- context [?a <? ?b] => destruct (N.ltb_spec a b); try lia_div
  | |- context [?a <=? ?b] => destruct (N.leb_spec a b); try lia_div
  end.

Ltac case_tests :=
  repeat match goal with
  | |- context [?a =? ?b] => destruct (N.eqb_spec a b)
  | |- context [?a <? ?b] => destruct (N.ltb_spec a b)
  | |- context [?a <=? ?b] => destruct (N.leb_spec a b)
  end.

Lemma decode_encode_char c bs rest :
  Py.encode_char c = Some bs ->
  Py.decode (bs ++ rest) = cons c <$> Py.decode rest.
Proof.
  unfold Py.encode_char, Py.is_surrogate.
  destruct (N.ltb_spec c 0x80); [intros [= <-]|].
  { cbn [app Py.decode]. split_tests. reflexivity. }
  destruct (N.ltb_spec c 0x800); [intros [= <-]|].
  { cbn [app Py.decode]. unfold Py.is_cont, Py.payload. split_tests.
    cbn [andb]. do 2 f_equal. lia_div. }
  destruct (N.ltb_spec c 0x10000).
  { destruct (N.leb_spec 0xD800 c), (N.leb_spec c 0xDFFF); cbn [andb];
      try discriminate; intros [= <-]; cbn [app Py.decode];
      unfold Py.is_cont, Py.payload, Py.is_surrogate;
      split_tests; cbn [andb negb]; do 2 f_equal; lia_div. }
  destruct (N.ltb_spec c 0x110000); [intros [= <-]|discriminate].
  cbn [app Py.decode]; unfold Py.is_cont, Py.payload.
  split_tests; cbn [andb negb]; do 2 f_equal; lia_div.
Qed.

(** What [encode] produces, strict [decode] reads back. *)
Lemma decode_encode s : forall b, Py.encode s = Some b -> Py.decode b = Some s.
Proof.
  induction s as [|c s IH]; intros b; cbn [Py.encode].
  - intros [= <-]. reflexivity.
  - destruct (Py.encode_char c) as [bc|] eqn:Hc; [|discriminate].
    destruct (Py.encode s) as [bs|]; [|discriminate].
    intros [= <-]. rewrite (decode_encode_char _ _ _ Hc), (IH bs eq_refl).
    reflexivity.
Qed.

(** Well-formed text always encodes. *)
Lemma encode_well_formed s : Py.well_formed s = true -> is_Some (Py.encode s).
Proof.
  induction s as [|c s IH]; cbn [Py.well_formed forallb Py.encode].
  - eauto.
  - intros [Hc Hs]%andb_prop. destruct (IH Hs) as [bs ->].
    assert (is_Some (Py.encode_char c)) as [bc ->]; [|eauto].
    revert Hc. unfold Py.is_scalar, Py.encode_char.
    destruct (Py.is_surrogate c); case_tests; cbn [andb negb]; eauto;
      discriminate.
Qed.









(** ** What the loop body asks of the cache and the engine *)

Section CallFacts.
Variable ENGINE : Direction -> XlitEngine.
Variables (d : Direction) (lang : Language) (lang_code : list N).


(** A word-mode miss: the engine is asked about the first 32 characters. *)
Lemma ulca_item_word_calls k item w :
  (next_outage (redis w)).1 = false ->
  db (redis w) !! cache_key item lang = None ->
  exists rest,
    calls (ulca_item ENGINE d lang lang_code false k item w).2
    = calls w
      ++ RedisGet (cache_key item lang)
         :: TranslitWord d (take 32 (source item)) lang_code k None :: rest.
Proof.
  intros Hup Hdb. unfold ulca_item.
  rewrite bind_unfold, (r_get_answered _ _ Hup), Hdb.
  unfold str_encode, engine_translit_word. run_world.
  repeat case_match; simplify_eq/=; rewrite <- ?app_assoc; cbn;
    eexists; reflexivity.
Qed.

(** A sentence-mode miss: the engine is asked about the whole source. *)
Lemma ulca_item_sentence_calls k item w :
  (next_outage (redis w)).1 = false ->
  db (redis w) !! cache_key item lang = None ->
  exists rest,
    calls (ulca_item ENGINE d lang lang_code true k item w).2
    = calls w
      ++ RedisGet (cache_key item lang)
         :: TranslitSentence d (source item) lang_code :: rest.
Proof.
  intros Hup Hdb. unfold ulca_item.
  rewrite bind_unfold, (r_get_answered _ _ Hup), Hdb.
  unfold str_encode, engine_translit_sentence. run_world.
  repeat case_match; simplify_eq/=; rewrite <- ?app_assoc; cbn;
    eexists; reflexivity.
Qed.

(** On a miss, a failing engine call is not absorbed by the loop body: an
    exception of the engine passes through, and an [XlitError] member or an
    empty candidate list makes the statements after the call raise. *)
Lemma ulca_item_engine_failure is_sentence k item w :
  (next_outage (redis w)).1 = false ->
  db (redis w) !! cache_key item lang = None ->
  (ulca_item ENGINE d lang lang_code is_sentence k item w).1
  = (if is_sentence
     then match translit_sentence (ENGINE d) (source item) lang_code with
          | Raises => Raised EngineException
          | Fails _ => Raised AttributeError
          | Gives _ =>
              (ulca_item ENGINE d lang lang_code is_sentence k item w).1
          end
     else match translit_word (ENGINE d) (take 32 (source item)) lang_code
                  k None with
          | Raises => Raised EngineException
          | Fails _ => Raised TypeError
          | Gives [] => Raised IndexError
          | Gives (_ :: _) =>
              (ulca_item ENGINE d lang lang_code is_sentence k item w).1
          end).
Proof.
  intros Hup Hdb. unfold ulca_item.
  rewrite bind_unfold, (r_get_answered _ _ Hup), Hdb.
  unfold engine_translit_word, engine_translit_sentence. run_world.
  destruct is_sentence.
  - by destruct (translit_sentence _ _ _).
  - by destruct (translit_word _ _ _ _ _) as [[|c l]| |].
Qed.

End CallFacts.

(** ** One-item requests *)

Section SingleFacts.
Variable ENGINE : Direction -> XlitEngine.

Lemma cache_key_source item item' lang :
  source item' = source item -> cache_key item' lang = cache_key item lang.
Proof. unfold cache_key. by intros ->. Qed.

Lemma for_each_single body item w :
  for_each body [item] w
  = match body item w with
    | (Returned item', w') => (Returned [item'], w')
    | (Raised e, w') => (Raised e, w')
    end.
Proof. rewrite for_each_cons. by destruct (body item w) as [[a|e] w']. Qed.

Lemma ulca_single_hit cfg item w b v :
  supported_pair ENGINE (language cfg) = true ->
  outages (redis w) = [] ->
  db (redis w) !! cache_key item (language cfg) = Some b ->
  Py.decode b = Some v ->
  ulca_api ENGINE {| input := Some [item]; config := Some cfg |} w
  = (Returned {| http_status := 200;
                 http_body := output_json [set_target item [v]] |},
     record_call (RedisGet (cache_key item (language cfg))) w).
Proof.
  intros Hs Hup Hdb Hdec.
  rewrite (ulca_api_loop _ _ [item] cfg) by done.
  rewrite for_each_single, ulca_body_unfold.
  by rewrite (ulca_item_hit _ _ _ _ _ _ _ _ b v).
Qed.



(** A one-item request that is answered with status 200 leaves its top
    result in the cache, under the item's key. *)
Lemma first_call_caches cfg item w r1 w1 :
  outages (redis w) = [] ->
  ulca_api ENGINE {| input := Some [item]; config := Some cfg |} w
  = (Returned r1, w1) ->
  http_status r1 = 200%Z ->
  exists src top rest b,
    http_body r1
    = output_json [ {| source := src; target := Some (top :: rest) |} ]
    /\ db (redis w1) !! cache_key item (language cfg) = Some b
    /\ Py.decode b = Some top
    /\ outages (redis w1) = [].
Proof.
  intros Hup Hcall Hst.
  destruct (supported_pair ENGINE (language cfg)) eqn:Hs; cycle 1.
  { unfold ulca_api in Hcall. cbn in Hcall. rewrite Hs in Hcall.
    injection Hcall as <- <-. discriminate. }
  rewrite (ulca_api_loop _ _ [item] cfg) in Hcall by done.
  rewrite for_each_single, ulca_body_unfold in Hcall.
  destruct w as [[dbw o] cs]. cbn in Hup. subst o.
  unfold ulca_item, bytes_decode, str_encode, engine_translit_word,
    engine_translit_sentence in Hcall.
  revert Hcall. run_world.
  destruct (dbw !! cache_key item (language cfg)) as [b|] eqn:Hdb.
  - destruct (Py.decode b) as [v|] eqn:Hdec; cbn; [|discriminate].
    intros [= <- <-]. cbn. eauto 10.
  - destruct (ulca_is_sentence cfg).
    + destruct (translit_sentence _ _ _) as [s| |]; cbn; try discriminate.
      destruct (Py.encode s) as [b|] eqn:Henc; cbn; [|discriminate].
      intros [= <- <-]. cbn. rewrite lookup_insert_eq.
      eauto 10 using decode_encode.
    + destruct (translit_word _ _ _ _ _) as [[|c l]| |]; cbn; try discriminate.
      destruct (Py.encode c) as [b|] eqn:Henc; cbn; [|discriminate].
      intros [= <- <-]. cbn. rewrite lookup_insert_eq.
      eauto 10 using decode_encode.
Qed.

End SingleFacts.

(** * The claims of the specification *)

(** ** Engine failures in the batch endpoint *)

(** C1, at a failing input. A batch of three items whose second item makes
    the engine fail does not return results for items 1 and 3: when the
    engine raises, the exception leaves [ulca_api] and the third item is
    never looked at; when the engine returns an [XlitError] member, taking
    element 0 of it raises [TypeError]. *)
Theorem batch_aborts_on_failing_item :
  ulca_api Demo.ENGINE
    (Demo.batch Demo.en_hi
       [Demo.item "amma"; Demo.item "boom"; Demo.item "bharat"] None None)
    Demo.empty_world
  = (Raised EngineException,
     {| redis :=
          {| db := {[ cache_key (Demo.item "amma") Demo.en_hi
                      := Py.lit "amma-1" ]};
             outages := [] |};
        calls :=
          [RedisGet (cache_key (Demo.item "amma") Demo.en_hi);
           TranslitWord en2indic (Py.lit "amma") (Py.lit "hi") 5 None;
           RedisSet (cache_key (Demo.item "amma") Demo.en_hi)
             (Py.lit "amma-1");
           RedisGet (cache_key (Demo.item "boom") Demo.en_hi);
           TranslitWord en2indic (Py.lit "boom") (Py.lit "hi") 5 None] |})
  /\ (ulca_api Demo.ENGINE
        (Demo.batch Demo.en_hi
           [Demo.item "amma"; Demo.item "bad"; Demo.item "bharat"] None None)
        Demo.empty_world).1
     = Raised TypeError.
Proof. split; vm_compute; reflexivity. Qed.

(** C5, at a failing input. An exception raised by the engine while the
    batch endpoint handles a request is not caught, in word mode and in
    sentence mode alike, whereas the word and reverse endpoints turn the
    same exception into an error envelope. *)
Theorem batch_engine_exception_escapes :
  (ulca_api Demo.ENGINE
     (Demo.batch Demo.en_hi [Demo.item "boom"] None None)
     Demo.empty_world).1
  = Raised EngineException
  /\ (ulca_api Demo.ENGINE
        (Demo.batch Demo.en_hi [Demo.item "boom"] (Some true) None)
        Demo.empty_world).1
     = Raised EngineException
  /\ (xlit_api false Demo.lower Demo.int Demo.str_of_set Demo.ENGINE
        (Demo.request []) (Py.lit "hi") (Py.lit "boom") Demo.empty_world).1
     = Returned
         (json_response
            {| success := false;
               error := Py.lit "Internal crash ;(";
               at_ := Py.lit "2022-04-09 00:00:00.000000 +0000 UTC";
               input_ := Py.lit "boom";
               result := result_empty |})
  /\ (reverse_xlit_api false Demo.int Demo.str_of_set Demo.ENGINE
        (Demo.request []) (Py.lit "hi") (Py.lit "boom") Demo.empty_world).1
     = Returned
         (json_response
            {| success := false;
               error := Py.lit "Internal crash ;(";
               at_ := Py.lit "2022-04-09 00:00:00.000000 +0000 UTC";
               input_ := Py.lit "boom";
               result := result_empty |}).
Proof. repeat split; vm_compute; reflexivity. Qed.

(** ** Cache-backend failures *)

(** C2 fails on the code: with the backend unreachable for the [get], the
    request that succeeds otherwise ends in [ConnectionError] without the
    engine being asked; with the backend unreachable for the [set], it ends
    in [ConnectionError] after the engine has answered. *)
Lemma cache_outage_fails_request :
  (ulca_api Demo.ENGINE (Demo.batch Demo.en_hi [Demo.item "amma"] None None)
     Demo.empty_world).1
  = Returned
      {| http_status := 200;
         http_body :=
           output_json
             [ {| source := Py.lit "amma";
                  target := Some [Py.lit "amma-1"; Py.lit "amma-2";
                                  Py.lit "amma-3"] |} ] |}
  /\ ulca_api Demo.ENGINE (Demo.batch Demo.en_hi [Demo.item "amma"] None None)
       {| redis := {| db := ∅; outages := [true] |}; calls := [] |}
     = (Raised ConnectionError,
        {| redis := {| db := ∅; outages := [] |};
           calls := [RedisGet (cache_key (Demo.item "amma") Demo.en_hi)] |})
  /\ ulca_api Demo.ENGINE (Demo.batch Demo.en_hi [Demo.item "amma"] None None)
       {| redis := {| db := ∅; outages := [false; true] |}; calls := [] |}
     = (Raised ConnectionError,
        {| redis := {| db := ∅; outages := [] |};
           calls :=
             [RedisGet (cache_key (Demo.item "amma") Demo.en_hi);
              TranslitWord en2indic (Py.lit "amma") (Py.lit "hi") 5 None;
              RedisSet (cache_key (Demo.item "amma") Demo.en_hi)
                (Py.lit "amma-1")] |}).
Proof. repeat split; vm_compute; reflexivity. Qed.

(** C2, as the code has it. Nothing guards the cache calls of the batch
    endpoint. For any item of a batch: when the backend is unreachable for
    the item's [get], the loop body raises [ConnectionError] right after
    that [get], without asking the engine; when the [get] is answered with
    a miss, the engine answers, and the backend is unreachable for the
    [set], the loop body raises [ConnectionError] too. An exception raised
    by the loop body on any item ends the request with that exception. *)
Theorem cache_failure_fails_request
    ENGINE cfg item w rest data pre post pre' w0 e w' :
  (outages (redis w) = true :: rest ->
   ulca_body ENGINE cfg item w
   = (Raised ConnectionError,
      {| redis := {| db := db (redis w); outages := rest |};
         calls := calls w ++ [RedisGet (cache_key item (language cfg))] |}))
  /\ (outages (redis w) = false :: true :: rest ->
      db (redis w) !! cache_key item (language cfg) = None ->
      (if ulca_is_sentence cfg
       then exists s b,
         translit_sentence (ENGINE (ulca_engine (language cfg)).1)
           (source item) (ulca_engine (language cfg)).2 = Gives s
         /\ Py.encode s = Some b
       else exists c l b,
         translit_word (ENGINE (ulca_engine (language cfg)).1)
           (take 32 (source item)) (ulca_engine (language cfg)).2
           (ulca_num_suggestions cfg) None = Gives (c :: l)
         /\ Py.encode c = Some b) ->
      (ulca_body ENGINE cfg item w).1 = Raised ConnectionError)
  /\ (input data = Some (pre ++ item :: post) ->
      config data = Some cfg ->
      supported_pair ENGINE (language cfg) = true ->
      for_each (ulca_body ENGINE cfg) pre w0 = (Returned pre', w) ->
      ulca_body ENGINE cfg item w = (Raised e, w') ->
      ulca_api ENGINE data w0 = (Raised e, w')).
Proof.
  split; [|split].
  - intros Hdown. rewrite ulca_body_unfold. unfold ulca_item.
    by rewrite bind_unfold, (r_get_down _ _ rest).
  - intros Hout Hdb Heng. rewrite ulca_body_unfold. unfold ulca_item.
    rewrite bind_unfold, r_get_answered by (unfold next_outage; rewrite Hout; reflexivity).
    rewrite Hdb. destruct w as [[dbw o] cs]. cbn in Hout, Hdb. subst o.
    unfold str_encode, engine_translit_word, engine_translit_sentence.
    destruct (ulca_is_sentence cfg).
    + destruct Heng as (s & b & -> & Henc). run_world. by rewrite Henc.
    + destruct Heng as (c & l & b & Heng & Henc). run_world.
      cbn [source target]. rewrite Heng. cbn. by rewrite Henc.
  - intros Hi Hc Hs Hpre Hitem.
    rewrite (ulca_api_loop _ _ _ _ _ Hi Hc Hs).
    by rewrite (for_each_raises _ _ _ _ _ _ _ _ _ Hpre Hitem).
Qed.

Lemma cache_failure_fails_request_witness :
  (ulca_api Demo.ENGINE
     (Demo.batch Demo.en_hi [Demo.item "amma"; Demo.item "bharat"] None None)
     {| redis := {| db := ∅; outages := [false; false; true] |};
        calls := [] |}).1
  = Raised ConnectionError
  /\ (ulca_body Demo.ENGINE (Demo.settings Demo.en_hi None None)
        (Demo.item "amma")
        {| redis := {| db := ∅; outages := [false; true] |};
           calls := [] |}).1
     = Raised ConnectionError.
Proof.
  pose (w1 := {| redis := {| db := {[ cache_key (Demo.item "amma") Demo.en_hi
                                      := Py.lit "amma-1" ]};
                             outages := [true] |};
                 calls :=
                   [RedisGet (cache_key (Demo.item "amma") Demo.en_hi);
                    TranslitWord en2indic (Py.lit "amma") (Py.lit "hi") 5 None;
                    RedisSet (cache_key (Demo.item "amma") Demo.en_hi)
                      (Py.lit "amma-1")] |}).
  split.
  - destruct (cache_failure_fails_request Demo.ENGINE
                (Demo.settings Demo.en_hi None None) (Demo.item "bharat")
                w1 []
                (Demo.batch Demo.en_hi [Demo.item "amma"; Demo.item "bharat"]
                   None None)
                [Demo.item "amma"] []
                [ {| source := Py.lit "amma";
                     target := Some [Py.lit "amma-1"; Py.lit "amma-2";
                                     Py.lit "amma-3"] |} ]
                {| redis := {| db := ∅; outages := [false; false; true] |};
                   calls := [] |}
                ConnectionError
                {| redis := {| db := db (redis w1); outages := [] |};
                   calls := calls w1
                            ++ [RedisGet
                                  (cache_key (Demo.item "bharat") Demo.en_hi)] |})
      as (Hget & _ & Hreq).
    rewrite Hreq; [reflexivity | reflexivity | reflexivity | | |].
    + vm_compute. reflexivity.
    + vm_compute. reflexivity.
    + apply Hget. reflexivity.
  - destruct (cache_failure_fails_request Demo.ENGINE
                (Demo.settings Demo.en_hi None None) (Demo.item "amma")
                {| redis := {| db := ∅; outages := [false; true] |};
                   calls := [] |}
                [] (Demo.batch Demo.en_hi [] None None) [] [] []
                Demo.empty_world ConnectionError Demo.empty_world)
      as (_ & Hset & _).
    apply Hset; [reflexivity | reflexivity |].
    exists (Py.lit "amma-1"), [Py.lit "amma-2"; Py.lit "amma-3"],
      (Py.lit "amma-1").
    split; vm_compute; reflexivity.
Defined.

(** ** Truncation *)

(** C3 fails on the code for batch items: for a 50-character source the
    cache is asked (and later filled) under the key of all 50 characters,
    which is not the key of the 32-character prefix, and in sentence mode
    the engine receives all 50 characters. *)
Lemma batch_source_not_cut_before_key :
  let src := Py.lit "01234567890123456789012345678901234567890123456789" in
  let item := {| source := src; target := None |} in
  length src = 50%nat
  /\ calls (ulca_api Demo.ENGINE (Demo.batch Demo.en_hi [item] None None)
              Demo.empty_world).2
     = [RedisGet (Py.json_dumps [src; Py.lit "en"; Py.lit "hi"]);
        TranslitWord en2indic (take 32 src) (Py.lit "hi") 5 None;
        RedisSet (Py.json_dumps [src; Py.lit "en"; Py.lit "hi"])
          (take 32 src ++ Py.lit "-1")]
  /\ Py.json_dumps [src; Py.lit "en"; Py.lit "hi"]
     <> Py.json_dumps [take 32 src; Py.lit "en"; Py.lit "hi"]
  /\ calls (ulca_api Demo.ENGINE
              (Demo.batch Demo.en_hi [item] (Some true) None)
              Demo.empty_world).2
     = [RedisGet (Py.json_dumps [src; Py.lit "en"; Py.lit "hi"]);
        TranslitSentence en2indic src (Py.lit "hi");
        RedisSet (Py.json_dumps [src; Py.lit "en"; Py.lit "hi"])
          (src ++ Py.lit "!")].
Proof. vm_compute. repeat split; discriminate. Qed.

(** C3, as the code has it. The word and reverse endpoints hand the engine
    the first 70 characters of the word. In the batch endpoint the cache key
    is computed from the item's source as received; a word-mode item that
    misses the cache is cut to its first 32 characters for the engine, and
    a sentence-mode item that misses goes to the engine whole. *)
Theorem text_caps
    ensure_ascii str_lower int_of_str str_of_langs ENGINE rq lang_code word cfg
    item w :
  (lang_code ∈ all_supported_langs (ENGINE en2indic) ->
   exists k numerals,
     calls (xlit_api ensure_ascii str_lower int_of_str str_of_langs ENGINE rq
              lang_code word w).2
     = calls w ++ [TranslitWord en2indic (take 70 word) lang_code k numerals])
  /\ (lang_code ∈ all_supported_langs (ENGINE indic2en) ->
      exists k numerals,
        calls (reverse_xlit_api ensure_ascii int_of_str str_of_langs ENGINE rq
                 lang_code word w).2
        = calls w
          ++ [TranslitWord indic2en (take 70 word) lang_code k numerals])
  /\ ((next_outage (redis w)).1 = false ->
      db (redis w) !! cache_key item (language cfg) = None ->
      exists rest,
        calls (ulca_body ENGINE cfg item w).2
        = calls w
          ++ RedisGet
               (Py.json_dumps
                  [source item; sourceLanguage (language cfg);
                   targetLanguage (language cfg)])
             :: (if ulca_is_sentence cfg
                 then TranslitSentence (ulca_engine (language cfg)).1
                        (source item) (ulca_engine (language cfg)).2
                 else TranslitWord (ulca_engine (language cfg)).1
                        (take 32 (source item)) (ulca_engine (language cfg)).2
                        (ulca_num_suggestions cfg) None)
             :: rest).
Proof.
  split; [|split].
  - intros H. rewrite (xlit_api_world _ _ _ _ _ _ _ _ _ H).
    do 2 eexists. reflexivity.
  - intros H. rewrite (reverse_xlit_api_world _ _ _ _ _ _ _ _ H).
    do 2 eexists. reflexivity.
  - intros Hup Hdb. rewrite ulca_body_unfold.
    destruct (ulca_is_sentence cfg).
    + by apply ulca_item_sentence_calls.
    + by apply ulca_item_word_calls.
Qed.

Lemma text_caps_witness :
  (exists k numerals,
     calls (xlit_api false Demo.lower Demo.int Demo.str_of_set Demo.ENGINE
              (Demo.request []) (Py.lit "ta")
              (Py.lit "0123456789012345678901234567890123456789012345678901234567890123456789tail")
              Demo.empty_world).2
     = [TranslitWord en2indic
          (Py.lit "0123456789012345678901234567890123456789012345678901234567890123456789")
          (Py.lit "ta") k numerals])
  /\ (exists rest,
        calls (ulca_body Demo.ENGINE (Demo.settings Demo.en_hi None None)
                 (Demo.item "01234567890123456789012345678901tail")
                 Demo.empty_world).2
        = RedisGet
            (Py.json_dumps
               [Py.lit "01234567890123456789012345678901tail"; Py.lit "en";
                Py.lit "hi"])
          :: TranslitWord en2indic (Py.lit "01234567890123456789012345678901")
               (Py.lit "hi") 5 None
          :: rest).
Proof.
  destruct (text_caps false Demo.lower Demo.int Demo.str_of_set Demo.ENGINE
              (Demo.request []) (Py.lit "ta")
              (Py.lit "0123456789012345678901234567890123456789012345678901234567890123456789tail")
              (Demo.settings Demo.en_hi None None)
              (Demo.item "01234567890123456789012345678901tail")
              Demo.empty_world) as (Htl & _ & Hbatch).
  split.
  - destruct Htl as (k & numerals & Hcalls).
    + apply (bool_decide_unpack _). vm_compute. exact I.
    + exists k, numerals. exact Hcalls.
  - destruct Hbatch as (rest & Hrest); [reflexivity | reflexivity |].
    exists rest. exact Hrest.
Defined.

(** ** The number of suggestions *)

(** C4 fails on the code: a requested [num_suggestions] of 100, far above
    [MAX_SUGGESTIONS], or of 0, reaches the engine as it is, on the word
    endpoint and on the batch endpoint. *)
Lemma topk_not_clamped :
  (MAX_SUGGESTIONS < 100)%Z
  /\ calls (xlit_api false Demo.lower Demo.int Demo.str_of_set Demo.ENGINE
             (Demo.request [(Py.lit "num_suggestions", Py.lit "100")])
             (Py.lit "ta") (Py.lit "amma") Demo.empty_world).2
     = [TranslitWord en2indic (Py.lit "amma") (Py.lit "ta") 100 (Some false)]
  /\ calls (xlit_api false Demo.lower Demo.int Demo.str_of_set Demo.ENGINE
             (Demo.request [(Py.lit "num_suggestions", Py.lit "0")])
             (Py.lit "ta") (Py.lit "amma") Demo.empty_world).2
     = [TranslitWord en2indic (Py.lit "amma") (Py.lit "ta") 0 (Some false)]
  /\ calls (ulca_api Demo.ENGINE
             (Demo.batch Demo.en_hi [Demo.item "amma"] None (Some 100%Z))
             Demo.empty_world).2
     = [RedisGet (cache_key (Demo.item "amma") Demo.en_hi);
        TranslitWord en2indic (Py.lit "amma") (Py.lit "hi") 100 None;
        RedisSet (cache_key (Demo.item "amma") Demo.en_hi) (Py.lit "amma-1")].
Proof. vm_compute. repeat split; reflexivity. Qed.

(** [request.args.get] looks at the first value of the name only. *)
Lemma args_get_at {A} rq name pre v more (d : A) conv :
  args rq = pre ++ (name, v) :: more ->
  Forall (fun kv => kv.1 <> name) pre ->
  args_get rq name d conv = default d (conv v).
Proof.
  intros Ha Hpre. unfold args_get. rewrite Ha. clear Ha.
  induction Hpre as [|[k x] pre Hk Hpre IH]; cbn.
  - by rewrite decide_True.
  - cbn in Hk. rewrite decide_False by done.
    destruct (list_find _ (pre ++ _)) as [[i [k' v']]|]; cbn in *; done.
Qed.

Lemma args_get_absent {A} rq name (d : A) conv :
  Forall (fun kv => kv.1 <> name) (args rq) -> args_get rq name d conv = d.
Proof.
  intros H. unfold args_get.
  destruct (list_find _ (args rq)) as [[i [k x]]|] eqn:E; [|done].
  apply list_find_Some in E as (Hi & Hk & _).
  rewrite Forall_lookup in H. by destruct (H _ _ Hi).
Qed.

(** C4, as the code has it. No clamping takes place. On the word and reverse
    endpoints the engine receives as [topk] the first [num_suggestions]
    value of the query as parsed, whatever integer it is and wherever it
    stands in the query, and 5 when that value is not an integer or when
    the query has no [num_suggestions]; in the batch endpoint a word-mode
    item that misses the cache is sent with [topk] equal to the configured
    [numSuggestions], 5 when absent; and sentence mode sets
    [num_suggestions] to 1. *)
Theorem topk_passed_as_requested
    ensure_ascii str_lower int_of_str str_of_langs ENGINE rq lang_code word
    pre v more cfg item w :
  (lang_code ∈ all_supported_langs (ENGINE en2indic) ->
   args rq = pre ++ (Py.lit "num_suggestions", v) :: more ->
   Forall (fun kv => kv.1 <> Py.lit "num_suggestions") pre ->
   calls (xlit_api ensure_ascii str_lower int_of_str str_of_langs ENGINE rq
            lang_code word w).2
   = calls w
     ++ [TranslitWord en2indic (take 70 word) lang_code
           (default 5%Z (int_of_str v))
           (Some (args_get rq (Py.lit "transliterate_numerals") false
                    (fun x => Some (bool_decide (str_lower x = Py.lit "true")))))])
  /\ (lang_code ∈ all_supported_langs (ENGINE indic2en) ->
      args rq = pre ++ (Py.lit "num_suggestions", v) :: more ->
      Forall (fun kv => kv.1 <> Py.lit "num_suggestions") pre ->
      calls (reverse_xlit_api ensure_ascii int_of_str str_of_langs ENGINE rq
               lang_code word w).2
      = calls w
        ++ [TranslitWord indic2en (take 70 word) lang_code
              (default 5%Z (int_of_str v)) None])
  /\ (lang_code ∈ all_supported_langs (ENGINE en2indic) ->
      Forall (fun kv => kv.1 <> Py.lit "num_suggestions") (args rq) ->
      calls (xlit_api ensure_ascii str_lower int_of_str str_of_langs ENGINE rq
               lang_code word w).2
      = calls w
        ++ [TranslitWord en2indic (take 70 word) lang_code 5
              (Some (args_get rq (Py.lit "transliterate_numerals") false
                       (fun x =>
                          Some (bool_decide (str_lower x = Py.lit "true")))))])
  /\ (lang_code ∈ all_supported_langs (ENGINE indic2en) ->
      Forall (fun kv => kv.1 <> Py.lit "num_suggestions") (args rq) ->
      calls (reverse_xlit_api ensure_ascii int_of_str str_of_langs ENGINE rq
               lang_code word w).2
      = calls w ++ [TranslitWord indic2en (take 70 word) lang_code 5 None])
  /\ ((next_outage (redis w)).1 = false ->
      db (redis w) !! cache_key item (language cfg) = None ->
      ulca_is_sentence cfg = false ->
      exists rest,
        calls (ulca_body ENGINE cfg item w).2
        = calls w
          ++ RedisGet (cache_key item (language cfg))
             :: TranslitWord (ulca_engine (language cfg)).1
                  (take 32 (source item)) (ulca_engine (language cfg)).2
                  (default 5%Z (numSuggestions cfg)) None
             :: rest)
  /\ (ulca_is_sentence cfg = true -> ulca_num_suggestions cfg = 1%Z).
Proof.
  repeat split.
  - intros H Ha Hpre. rewrite (xlit_api_world _ _ _ _ _ _ _ _ _ H).
    cbn [calls record_call].
    by rewrite (args_get_at _ (Py.lit "num_suggestions") pre v more).
  - intros H Ha Hpre. rewrite (reverse_xlit_api_world _ _ _ _ _ _ _ _ H).
    cbn [calls record_call].
    by rewrite (args_get_at _ (Py.lit "num_suggestions") pre v more).
  - intros H Ha. rewrite (xlit_api_world _ _ _ _ _ _ _ _ _ H).
    cbn [calls record_call].
    by rewrite (args_get_absent _ (Py.lit "num_suggestions")).
  - intros H Ha. rewrite (reverse_xlit_api_world _ _ _ _ _ _ _ _ H).
    cbn [calls record_call].
    by rewrite (args_get_absent _ (Py.lit "num_suggestions")).
  - intros Hup Hdb Hm. rewrite ulca_body_unfold, Hm.
    unfold ulca_num_suggestions. rewrite Hm.
    by apply ulca_item_word_calls.
  - intros Hm. unfold ulca_num_suggestions. by rewrite Hm.
Qed.

Lemma topk_passed_as_requested_witness :
  calls (xlit_api false Demo.lower Demo.int Demo.str_of_set Demo.ENGINE
           (Demo.request [(Py.lit "transliterate_numerals", Py.lit "True");
                          (Py.lit "num_suggestions", Py.lit "12");
                          (Py.lit "num_suggestions", Py.lit "3")])
           (Py.lit "ta") (Py.lit "amma") Demo.empty_world).2
  = [TranslitWord en2indic (Py.lit "amma") (Py.lit "ta") 12 (Some true)]
  /\ calls (reverse_xlit_api false Demo.int Demo.str_of_set Demo.ENGINE
              (Demo.request [(Py.lit "transliterate_numerals", Py.lit "True");
                             (Py.lit "num_suggestions", Py.lit "12");
                             (Py.lit "num_suggestions", Py.lit "3")])
              (Py.lit "ta") (Py.lit "amma") Demo.empty_world).2
     = [TranslitWord indic2en (Py.lit "amma") (Py.lit "ta") 12 None]
  /\ calls (xlit_api false Demo.lower Demo.int Demo.str_of_set Demo.ENGINE
              (Demo.request [(Py.lit "transliterate_numerals", Py.lit "True")])
              (Py.lit "ta") (Py.lit "amma") Demo.empty_world).2
     = [TranslitWord en2indic (Py.lit "amma") (Py.lit "ta") 5 (Some true)]
  /\ calls (reverse_xlit_api false Demo.int Demo.str_of_set Demo.ENGINE
              (Demo.request [(Py.lit "transliterate_numerals", Py.lit "True")])
              (Py.lit "ta") (Py.lit "amma") Demo.empty_world).2
     = [TranslitWord indic2en (Py.lit "amma") (Py.lit "ta") 5 None]
  /\ (exists rest,
        calls (ulca_body Demo.ENGINE
                 (Demo.settings Demo.en_hi None (Some 12%Z))
                 (Demo.item "amma") Demo.empty_world).2
        = RedisGet (cache_key (Demo.item "amma") Demo.en_hi)
          :: TranslitWord en2indic (Py.lit "amma") (Py.lit "hi") 12 None
          :: rest)
  /\ ulca_num_suggestions (Demo.settings Demo.en_hi (Some true) (Some 12%Z))
     = 1%Z.
Proof.
  assert (Py.lit "ta" ∈ Demo.langs) as Hta
    by (apply (bool_decide_unpack _); vm_compute; exact I).
  assert (Forall (fun kv : list N * list N => kv.1 <> Py.lit "num_suggestions")
            [(Py.lit "transliterate_numerals", Py.lit "True")]) as Hpre
    by (constructor; [discriminate | constructor]).
  destruct (topk_passed_as_requested false Demo.lower Demo.int
              Demo.str_of_set Demo.ENGINE
              (Demo.request [(Py.lit "transliterate_numerals", Py.lit "True");
                             (Py.lit "num_suggestions", Py.lit "12");
                             (Py.lit "num_suggestions", Py.lit "3")])
              (Py.lit "ta") (Py.lit "amma")
              [(Py.lit "transliterate_numerals", Py.lit "True")]
              (Py.lit "12") [(Py.lit "num_suggestions", Py.lit "3")]
              (Demo.settings Demo.en_hi None (Some 12%Z)) (Demo.item "amma")
              Demo.empty_world) as (Htl & Hrtl & _ & _ & Hbatch & _).
  destruct (topk_passed_as_requested false Demo.lower Demo.int
              Demo.str_of_set Demo.ENGINE
              (Demo.request [(Py.lit "transliterate_numerals", Py.lit "True")])
              (Py.lit "ta") (Py.lit "amma") [] [] []
              (Demo.settings Demo.en_hi (Some true) (Some 12%Z))
              (Demo.item "amma") Demo.empty_world)
    as (_ & _ & Htl0 & Hrtl0 & _ & Hs).
  split; [|split; [|split; [|split; [|split]]]].
  - exact (Htl Hta eq_refl Hpre).
  - exact (Hrtl Hta eq_refl Hpre).
  - exact (Htl0 Hta Hpre).
  - exact (Hrtl0 Hta Hpre).
  - destruct Hbatch as (rest & Hcalls); [reflexivity..|].
    exists rest. exact Hcalls.
  - apply Hs. reflexivity.
Defined.

(** ** Cache hits and repeated requests *)

(** C6 fails on the code for the word and reverse endpoints: they never look
    at the cache. With an entry stored under the key of
    [("amma", "en", "ta")] the word endpoint still calls the engine, and
    with the engine unavailable it answers with an error instead of the
    stored value. *)
Lemma word_endpoint_ignores_cache :
  let w :=
    {| redis :=
         {| db := {[ Py.json_dumps [Py.lit "amma"; Py.lit "en"; Py.lit "ta"]
                     := Py.lit "stored" ]};
            outages := [] |};
       calls := [] |} in
  calls (xlit_api false Demo.lower Demo.int Demo.str_of_set Demo.ENGINE
           (Demo.request []) (Py.lit "ta") (Py.lit "amma") w).2
  = [TranslitWord en2indic (Py.lit "amma") (Py.lit "ta") 5 (Some false)]
  /\ (xlit_api false Demo.lower Demo.int Demo.str_of_set Demo.ENGINE_down
        (Demo.request []) (Py.lit "ta") (Py.lit "amma") w).1
     = Returned
         (json_response
            {| success := false;
               error := Py.lit "Internal crash ;(";
               at_ := Py.lit "2022-04-09 00:00:00.000000 +0000 UTC";
               input_ := Py.lit "amma";
               result := result_empty |}).
Proof. vm_compute. split; reflexivity. Qed.

(** C6, as the code has it. In the batch endpoint, an item whose key has a
    (decodable) entry gets that entry as its only target, after a single
    [get] and without any engine call. Hence, once a one-item batch request
    has been answered with status 200, every later one-item batch request
    for the same source and language pair returns the same top result while
    the entry is in the cache, whatever the engine does by then. The word
    and reverse endpoints do not use the cache: they leave Redis alone and
    call the engine on every request with a supported language. *)
Theorem cached_result_is_returned
    ensure_ascii str_lower int_of_str str_of_langs
    ENGINE ENGINE' cfg cfg' item item' w b v r1 w1 w2 rq lang_code word :
  (outages (redis w) = [] ->
   db (redis w) !! cache_key item (language cfg) = Some b ->
   Py.decode b = Some v ->
   ulca_body ENGINE cfg item w
   = (Returned (set_target item [v]),
      record_call (RedisGet (cache_key item (language cfg))) w))
  /\ (outages (redis w) = [] ->
      ulca_api ENGINE {| input := Some [item]; config := Some cfg |} w
      = (Returned r1, w1) ->
      http_status r1 = 200%Z ->
      source item' = source item ->
      language cfg' = language cfg ->
      supported_pair ENGINE' (language cfg') = true ->
      outages (redis w2) = [] ->
      db (redis w2) !! cache_key item (language cfg)
      = db (redis w1) !! cache_key item (language cfg) ->
      exists src top rest,
        http_body r1
        = output_json [ {| source := src; target := Some (top :: rest) |} ]
        /\ ulca_api ENGINE' {| input := Some [item']; config := Some cfg' |} w2
           = (Returned
                {| http_status := 200;
                   http_body := output_json [set_target item' [top]] |},
              record_call (RedisGet (cache_key item (language cfg))) w2))
  /\ (lang_code ∈ all_supported_langs (ENGINE en2indic) ->
      exists k numerals,
        (xlit_api ensure_ascii str_lower int_of_str str_of_langs ENGINE rq
           lang_code word
           w).2
        = record_call
            (TranslitWord en2indic (take 70 word) lang_code k numerals) w)
  /\ (lang_code ∈ all_supported_langs (ENGINE indic2en) ->
      exists k numerals,
        (reverse_xlit_api ensure_ascii int_of_str str_of_langs ENGINE rq
           lang_code word
           w).2
        = record_call
            (TranslitWord indic2en (take 70 word) lang_code k numerals) w).
Proof.
  split; [|split; [|split]].
  - intros Hup Hdb Hdec. rewrite ulca_body_unfold.
    by apply ulca_item_hit with (b := b).
  - intros Hup Hcall Hst Hsrc Hlang Hs Hup2 Hdb2.
    destruct (first_call_caches _ _ _ _ _ _ Hup Hcall Hst)
      as (src & top & rest & b1 & Hbody & Hdb1 & Hdec & _).
    exists src, top, rest. split; [done|].
    rewrite <- (cache_key_source item item' (language cfg)) by done.
    rewrite <- Hlang.
    apply ulca_single_hit with (b := b1); [done | done | | done].
    rewrite Hlang, (cache_key_source item item') by done.
    by rewrite Hdb2.
  - intros H. rewrite (xlit_api_world _ _ _ _ _ _ _ _ _ H).
    do 2 eexists. reflexivity.
  - intros H. rewrite (reverse_xlit_api_world _ _ _ _ _ _ _ _ H).
    do 2 eexists. reflexivity.
Qed.

Lemma cached_result_is_returned_witness :
  let w1 :=
    {| redis :=
         {| db := {[ cache_key (Demo.item "amma") Demo.en_hi
                     := Py.lit "amma-1" ]};
            outages := [] |};
       calls :=
         [RedisGet (cache_key (Demo.item "amma") Demo.en_hi);
          TranslitWord en2indic (Py.lit "amma") (Py.lit "hi") 5 None;
          RedisSet (cache_key (Demo.item "amma") Demo.en_hi)
            (Py.lit "amma-1")] |} in
  exists top,
    ulca_api Demo.ENGINE_down
      {| input := Some [Demo.item "amma"];
         config := Some (Demo.settings Demo.en_hi (Some true) None) |} w1
    = (Returned
         {| http_status := 200;
            http_body := output_json [set_target (Demo.item "amma") [top]] |},
       record_call (RedisGet (cache_key (Demo.item "amma") Demo.en_hi)) w1).
Proof.
  intros w1.
  destruct (cached_result_is_returned false Demo.lower Demo.int Demo.str_of_set
              Demo.ENGINE Demo.ENGINE_down
              (Demo.settings Demo.en_hi None None)
              (Demo.settings Demo.en_hi (Some true) None)
              (Demo.item "amma") (Demo.item "amma") Demo.empty_world
              [] [] 
              {| http_status := 200;
                 http_body :=
                   output_json
                     [ {| source := Py.lit "amma";
                          target := Some [Py.lit "amma-1"; Py.lit "amma-2";
                                          Py.lit "amma-3"] |} ] |}
              w1 w1 (Demo.request []) (Py.lit "ta") (Py.lit "amma"))
    as (_ & Hagain & _).
  destruct Hagain as (src & top & rest & _ & Hcall);
    [reflexivity | vm_compute; reflexivity | reflexivity..|].
  exists top. exact Hcall.
Defined.

(** ** Language validation *)

Lemma supported_pair_false ENGINE lang :
  ¬ ((sourceLanguage lang = Py.lit "en"
      ∧ targetLanguage lang ∈ all_supported_langs (ENGINE en2indic))
     ∨ (sourceLanguage lang ∈ all_supported_langs (ENGINE indic2en)
        ∧ targetLanguage lang = Py.lit "en")) ->
  supported_pair ENGINE lang = false.
Proof.
  intros H. unfold supported_pair.
  apply orb_false_iff. split; apply andb_false_iff.
  - destruct (decide (sourceLanguage lang = Py.lit "en")) as [H1|H1];
      [right|left]; apply bool_decide_eq_false; [|done]. intros H2. apply H. by left.
  - destruct (decide (targetLanguage lang = Py.lit "en")) as [H1|H1];
      [left|right]; apply bool_decide_eq_false; [|done]. intros H2. apply H. by right.
Qed.

(** C7. A request whose language code (word and reverse endpoints) or
    language pair (batch endpoint) is not registered for the implied
    direction is rejected before any cache or engine access: the world is
    left as it was. The word and reverse endpoints answer with
    [success = false] and an [error] that carries the supported-language
    hint; the batch endpoint answers with status 501 (with status 400 when
    the body lacks its [input] field as well). *)
Theorem unsupported_language_rejected
    ensure_ascii str_lower int_of_str str_of_langs ENGINE rq lang_code word data
    items cfg w :
  (lang_code ∉ all_supported_langs (ENGINE en2indic) ->
   xlit_api ensure_ascii str_lower int_of_str str_of_langs ENGINE rq lang_code
     word w
   = (Returned
        {| http_status := 200;
           http_body :=
             envelope_json
               {| success := false;
                  error :=
                    Py.lit "Invalid scheme identifier. Supported languages are: "
                    ++ str_of_langs (all_supported_langs (ENGINE en2indic));
                  at_ := utcnow rq ++ Py.lit " +0000 UTC";
                  input_ := Py.strip word;
                  result := result_empty |} |},
      w))
  /\ (lang_code ∉ all_supported_langs (ENGINE indic2en) ->
      reverse_xlit_api ensure_ascii int_of_str str_of_langs ENGINE rq lang_code
        word w
      = (Returned
           {| http_status := 200;
              http_body :=
                envelope_json
                  {| success := false;
                     error :=
                       Py.lit "Invalid scheme identifier. Supported languages are: "
                       ++ str_of_langs (all_supported_langs (ENGINE indic2en));
                     at_ := utcnow rq ++ Py.lit " +0000 UTC";
                     input_ := Py.strip word;
                     result := result_empty |} |},
         w))
  /\ (input data = Some items -> config data = Some cfg ->
      ¬ ((sourceLanguage (language cfg) = Py.lit "en"
          ∧ targetLanguage (language cfg)
            ∈ all_supported_langs (ENGINE en2indic))
         ∨ (sourceLanguage (language cfg)
            ∈ all_supported_langs (ENGINE indic2en)
            ∧ targetLanguage (language cfg) = Py.lit "en")) ->
      ulca_api ENGINE data w
      = (Returned
           {| http_status := 501;
              http_body :=
                status_json 501
                  (Py.lit "The mentioned language-pair is not supported yet.") |},
         w))
  /\ (config data = Some cfg ->
      ¬ ((sourceLanguage (language cfg) = Py.lit "en"
          ∧ targetLanguage (language cfg)
            ∈ all_supported_langs (ENGINE en2indic))
         ∨ (sourceLanguage (language cfg)
            ∈ all_supported_langs (ENGINE indic2en)
            ∧ targetLanguage (language cfg) = Py.lit "en")) ->
      exists resp,
        ulca_api ENGINE data w = (Returned resp, w)
        /\ (http_status resp = 400%Z ∨ http_status resp = 501%Z)).
Proof.
  split; [|split; [|split]].
  - intros H. by rewrite xlit_api_unsupported.
  - intros H. by rewrite reverse_xlit_api_unsupported.
  - intros Hi Hc H. unfold ulca_api.
    by rewrite Hi, Hc, (supported_pair_false _ _ H).
  - intros Hc H. unfold ulca_api. rewrite Hc, (supported_pair_false _ _ H).
    destruct (input data); eexists; (split; [reflexivity|]); cbn; auto.
Qed.

Lemma unsupported_language_rejected_witness :
  (xlit_api false Demo.lower Demo.int Demo.str_of_set Demo.ENGINE
     (Demo.request []) (Py.lit "xx") (Py.lit "amma") Demo.empty_world).2 = Demo.empty_world
  /\ (reverse_xlit_api false Demo.int Demo.str_of_set Demo.ENGINE
        (Demo.request []) (Py.lit "xx") (Py.lit "amma") Demo.empty_world).2 = Demo.empty_world
  /\ (ulca_api Demo.ENGINE
        (Demo.batch Demo.en_xx [Demo.item "amma"] None None)
        Demo.empty_world).2 = Demo.empty_world
  /\ (exists resp,
        ulca_api Demo.ENGINE
          (Demo.batch Demo.en_xx [Demo.item "amma"] None None)
          Demo.empty_world
        = (Returned resp, Demo.empty_world)
        /\ (http_status resp = 400%Z ∨ http_status resp = 501%Z)).
Proof.
  destruct (unsupported_language_rejected false Demo.lower Demo.int
              Demo.str_of_set
              Demo.ENGINE (Demo.request []) (Py.lit "xx") (Py.lit "amma")
              (Demo.batch Demo.en_xx [Demo.item "amma"] None None)
              [Demo.item "amma"] (Demo.settings Demo.en_xx None None)
              Demo.empty_world) as (Htl & Hrtl & Hbatch & Hany).
  assert (Py.lit "xx" ∉ Demo.langs) as Hxx
    by (apply (bool_decide_unpack _); vm_compute; exact I).
  assert (Py.lit "en" ∉ Demo.langs) as Hen
    by (apply (bool_decide_unpack _); vm_compute; exact I).
  assert (¬ ((Py.lit "en" = Py.lit "en" ∧ Py.lit "xx" ∈ Demo.langs)
             ∨ (Py.lit "en" ∈ Demo.langs ∧ Py.lit "xx" = Py.lit "en")))
    as Hpair by (intros [[_ H]|[H _]]; [exact (Hxx H) | exact (Hen H)]).
  split; [|split; [|split]].
  - rewrite Htl; [reflexivity | exact Hxx].
  - rewrite Hrtl; [reflexivity | exact Hxx].
  - rewrite Hbatch; [reflexivity | reflexivity | reflexivity | exact Hpair].
  - apply Hany; [reflexivity | exact Hpair].
Defined.

(** ** Rate limiting *)

Lemma endpoint_name_inj ep ep' : endpoint_name ep = endpoint_name ep' -> ep = ep'.
Proof. destruct ep, ep'; intros H; try reflexivity; vm_compute in H; discriminate. Qed.

(** A hit under another key leaves this key's bucket alone. *)
Lemma allow_other_key ep id ep' rq st :
  ¬ (ep' = ep ∧ get_remote_address rq = id) ->
  (allow ep' rq st).2 !! (endpoint_name ep, id) = st !! (endpoint_name ep, id).
Proof.
  intros Hne. unfold allow. destruct (route_limit ep'); [|done].
  unfold hit. cbn [snd]. apply lookup_insert_ne.
  intros [= Hn Hi]. apply Hne. split; [|done]. by apply endpoint_name_inj.
Qed.

(** The decision on a hit, and the bucket it leaves, depend on the storage
    through this key's bucket only. *)
Lemma allow_same_key ep rq st st' :
  st !! (endpoint_name ep, get_remote_address rq)
  = st' !! (endpoint_name ep, get_remote_address rq) ->
  (allow ep rq st).1 = (allow ep rq st').1
  /\ (allow ep rq st).2 !! (endpoint_name ep, get_remote_address rq)
     = (allow ep rq st').2 !! (endpoint_name ep, get_remote_address rq).
Proof.
  intros H. unfold allow. destruct (route_limit ep); [|done].
  unfold hit. cbn [fst snd]. rewrite H, !lookup_insert_eq. done.
Qed.

Lemma admissions_for_alone ep id reqs : forall st st',
  st !! (endpoint_name ep, id) = st' !! (endpoint_name ep, id) ->
  admissions_for ep id reqs st
  = admissions
      (filter (fun x => x.1 = ep ∧ get_remote_address x.2 = id) reqs) st'.
Proof.
  induction reqs as [|[ep' rq] reqs IH]; intros st st' Hst; [done|].
  cbn [admissions_for]. destruct (allow ep' rq st) as [ok st1] eqn:Hadm.
  destruct (decide (ep' = ep ∧ get_remote_address rq = id)) as [[-> <-]|Hne].
  - rewrite filter_cons_True by done. cbn [admissions].
    destruct (allow ep rq st') as [ok' st1'] eqn:Hadm'.
    destruct (allow_same_key ep rq st st' Hst) as [Hok Hb].
    rewrite Hadm, Hadm' in Hok, Hb. cbn in Hok, Hb. subst ok'.
    f_equal. by apply IH.
  - rewrite filter_cons_False by done. apply IH.
    rewrite <- Hst. pose proof (allow_other_key ep id ep' rq st Hne) as H.
    by rewrite Hadm in H.
Qed.

(** Inside a running window the count decides. *)
Lemma admissions_running ep id mine : forall st t0 n,
  route_limit ep = Some five_per_second ->
  Forall (fun x => x.1 = ep ∧ get_remote_address x.2 = id
                   ∧ time_ms x.2 < t0 + 1000) mine ->
  st !! (endpoint_name ep, id) = Some {| windowStart := t0; count := n |} ->
  admissions mine st
  = replicate (min (5 - N.to_nat n) (length mine)) true
    ++ replicate (length mine - (5 - N.to_nat n)) false.
Proof.
  induction mine as [|[ep' rq] mine IH]; intros st t0 n Hlim Hall Hst.
  { cbn. by rewrite Nat.min_0_r. }
  apply Forall_cons in Hall as [(Hep & Hid & Ht) Hall]. cbn in Hep, Hid, Ht.
  subst ep' id. cbn [admissions]. unfold allow. rewrite Hlim.
  unfold hit. rewrite Hst. cbn [windowStart count period_ms five_per_second].
  destruct (N.ltb_spec (time_ms rq) (t0 + 1000)) as [_|]; [|lia].
  cbn [count fst snd]. change (amount five_per_second) with 5.
  rewrite (IH _ t0 (n + 1)); [|done|done|by rewrite lookup_insert_eq].
  cbn [length]. destruct (N.leb_spec (n + 1) 5) as [Hle|Hgt].
  - replace (5 - N.to_nat n)%nat with (S (5 - N.to_nat (n + 1)))%nat by lia.
    reflexivity.
  - replace (5 - N.to_nat n)%nat with 0%nat by lia.
    replace (5 - N.to_nat (n + 1))%nat with 0%nat by lia.
    cbn. by rewrite Nat.sub_0_r.
Qed.

(** From a state with no running window: five allowed, the rest not. *)
Lemma admissions_burst ep id mine st t1 :
  route_limit ep = Some five_per_second ->
  (forall b, st !! (endpoint_name ep, id) = Some b ->
             windowStart b + 1000 <= t1) ->
  Forall (fun x => x.1 = ep ∧ get_remote_address x.2 = id
                   ∧ t1 <= time_ms x.2 ∧ time_ms x.2 < t1 + 1000) mine ->
  admissions mine st
  = replicate (min 5 (length mine)) true
    ++ replicate (length mine - 5) false.
Proof.
  intros Hlim Hfresh Hall. destruct mine as [|[ep' rq] mine]; [done|].
  apply Forall_cons in Hall as [(Hep & Hid & Ht1 & Ht2) Hall].
  cbn in Hep, Hid, Ht1, Ht2. subst ep' id.
  cbn [admissions]. unfold allow. rewrite Hlim. unfold hit.
  set (key := (endpoint_name ep, get_remote_address rq)) in *.
  assert (match st !! key with
          | Some b =>
              if time_ms rq <? windowStart b + period_ms five_per_second
              then {| windowStart := windowStart b; count := count b + 1 |}
              else {| windowStart := time_ms rq; count := 1 |}
          | None => {| windowStart := time_ms rq; count := 1 |}
          end = {| windowStart := time_ms rq; count := 1 |}) as ->.
  { destruct (st !! key) as [b|] eqn:Hb; [|done].
    specialize (Hfresh b eq_refl). cbn [period_ms five_per_second].
    destruct (N.ltb_spec (time_ms rq) (windowStart b + 1000)); [lia|done]. }
  cbn [count fst snd]. change (amount five_per_second) with 5.
  rewrite (admissions_running ep (get_remote_address rq) mine _ (time_ms rq) 1);
    [reflexivity | done | | by rewrite lookup_insert_eq].
  eapply Forall_impl; [exact Hall|]. cbn. intros x (? & ? & ? & ?).
  repeat split; [done..|lia].
Qed.

Lemma limited_routes ep :
  ep = tl_route ∨ ep = rtl_route -> route_limit ep = Some five_per_second.
Proof. by intros [-> | ->]. Qed.

(** C8 fails on a burst that straddles the end of a window. After a first
    request at 0 ms the window of the client lasts until 1000 ms; the nine
    requests at 996, ..., 1004 ms come from the same client, to the same
    route, within nine milliseconds, and all of them are allowed: four in
    the first window and five in the window that opens at 1000 ms. The
    sixth of them, at 1001 ms, is answered by the handler with status 200,
    not with 429. *)
Lemma sixth_request_across_windows :
  admissions
    [(tl_route, Demo.from "10.0.0.1" 0);
     (tl_route, Demo.from "10.0.0.1" 996);
     (tl_route, Demo.from "10.0.0.1" 997);
     (tl_route, Demo.from "10.0.0.1" 998);
     (tl_route, Demo.from "10.0.0.1" 999);
     (tl_route, Demo.from "10.0.0.1" 1000);
     (tl_route, Demo.from "10.0.0.1" 1001);
     (tl_route, Demo.from "10.0.0.1" 1002);
     (tl_route, Demo.from "10.0.0.1" 1003);
     (tl_route, Demo.from "10.0.0.1" 1004)] ∅
  = [true; true; true; true; true; true; true; true; true; true]
  /\ (serve false Demo.lower Demo.int Demo.str_of_set Demo.ENGINE
        (tl (Py.lit "ta") (Py.lit "amma")) (Demo.from "10.0.0.1" 1001)
        {| limiter :=
             foldl (fun st rq => (allow tl_route rq st).2) ∅
               [Demo.from "10.0.0.1" 0; Demo.from "10.0.0.1" 996;
                Demo.from "10.0.0.1" 997; Demo.from "10.0.0.1" 998;
                Demo.from "10.0.0.1" 999; Demo.from "10.0.0.1" 1000];
           world := Demo.empty_world |}).1
     = Returned
         (json_response
            {| success := true; error := [];
               at_ := Py.lit "2022-04-09 00:00:00.000000 +0000 UTC";
               input_ := Py.lit "amma";
               result := result_list
                           [Py.lit "amma-1"; Py.lit "amma-2";
                            Py.lit "amma-3"] |}).
Proof. split; vm_compute; reflexivity. Qed.

(** C8, as the limiter counts. The word and reverse endpoints sit behind a
    window counter of five hits per second, kept per route and client
    identity; the batch endpoint is not limited.
    - A request to [/tl] or [/rtl] is either rejected with status 429,
      without the handler being run, or handed to the handler, whose
      outcome is the outcome of the request; a response the handler returns
      has status 200.
    - A request to [/transliterate] always reaches [ulca_api] and leaves the
      limiter storage as it was.
    - Of the arrivals of one client at one limited route that fall within
      one second from [t1], no window of that client and route running at
      [t1], exactly the first five are allowed and the sixth and later ones
      are rejected, whatever other clients send in between and whatever the
      same client sends to other routes.
    - The decisions for a client at a route are those it would get alone. *)
Theorem five_per_second_per_client
    ensure_ascii str_lower int_of_str str_of_langs ENGINE c rq s data ep id
    reqs st t1 :
  (endpoint_of c = tl_route ∨ endpoint_of c = rtl_route ->
   if (allow (endpoint_of c) rq (limiter s)).1
   then
     serve ensure_ascii str_lower int_of_str str_of_langs ENGINE c rq s
     = ((handler ensure_ascii str_lower int_of_str str_of_langs ENGINE c rq
           (world s)).1,
        {| limiter := (allow (endpoint_of c) rq (limiter s)).2;
           world :=
             (handler ensure_ascii str_lower int_of_str str_of_langs ENGINE c
                rq (world s)).2 |})
     /\ (forall resp,
           (handler ensure_ascii str_lower int_of_str str_of_langs ENGINE c rq
              (world s)).1 = Returned resp ->
           http_status resp = 200%Z)
   else
     serve ensure_ascii str_lower int_of_str str_of_langs ENGINE c rq s
     = (Returned {| http_status := 429; http_body := error_page |},
        {| limiter := (allow (endpoint_of c) rq (limiter s)).2;
           world := world s |}))
  /\ serve ensure_ascii str_lower int_of_str str_of_langs ENGINE
       (transliterate data) rq s
     = ((ulca_api ENGINE data (world s)).1,
        {| limiter := limiter s;
           world := (ulca_api ENGINE data (world s)).2 |})
  /\ (ep = tl_route ∨ ep = rtl_route ->
      (forall b, st !! (endpoint_name ep, id) = Some b ->
                 windowStart b + 1000 <= t1) ->
      (forall x, x ∈ reqs -> x.1 = ep -> get_remote_address x.2 = id ->
                 t1 <= time_ms x.2 ∧ time_ms x.2 < t1 + 1000) ->
      let n :=
        length (filter (fun x => x.1 = ep ∧ get_remote_address x.2 = id) reqs)
      in
      admissions_for ep id reqs st
      = replicate (min 5 n) true ++ replicate (n - 5) false)
  /\ admissions_for ep id reqs st
     = admissions
         (filter (fun x => x.1 = ep ∧ get_remote_address x.2 = id) reqs) st.
Proof.
  split; [|split; [|split]].
  - intros Hc. unfold serve.
    destruct (allow (endpoint_of c) rq (limiter s)) as [ok lim].
    destruct ok; cbn [fst snd]; [|done]. split.
    + by destruct (handler _ _ _ _ _ c rq (world s)).
    + intros resp.
      destruct c as [lang_code word|lang_code word|body]; cbn [handler].
      * apply xlit_api_status.
      * apply reverse_xlit_api_status.
      * by destruct Hc.
  - unfold serve. cbn. by destruct (ulca_api ENGINE data (world s)).
  - intros Hep Hfresh Htimes n.
    rewrite (admissions_for_alone ep id reqs st st eq_refl).
    apply (admissions_burst ep id _ st t1); [by apply limited_routes|done|].
    apply Forall_forall. intros x [[Hx1 Hx2] Hx]%list_elem_of_filter.
    destruct (Htimes x Hx Hx1 Hx2). done.
  - by apply admissions_for_alone.
Qed.

Lemma five_per_second_per_client_witness :
  admissions_for tl_route (Py.lit "10.0.0.1")
    [(tl_route, Demo.from "10.0.0.1" 100);
     (tl_route, Demo.from "10.0.0.2" 150);
     (tl_route, Demo.from "10.0.0.1" 200);
     (rtl_route, Demo.from "10.0.0.1" 250);
     (tl_route, Demo.from "10.0.0.1" 300);
     (tl_route, Demo.from "10.0.0.1" 400);
     (transliterate_route, Demo.from "10.0.0.1" 450);
     (tl_route, Demo.from "10.0.0.1" 500);
     (tl_route, Demo.from "10.0.0.1" 1099)] ∅
  = [true; true; true; true; true; false]
  /\ (serve false Demo.lower Demo.int Demo.str_of_set Demo.ENGINE
        (tl (Py.lit "ta") (Py.lit "amma")) (Demo.from "10.0.0.1" 1099)
        {| limiter := {[ (Py.lit "xlit_api", Py.lit "10.0.0.1")
                         := {| windowStart := 100; count := 5 |} ]};
           world := Demo.empty_world |}).1
     = Returned {| http_status := 429; http_body := error_page |}.
Proof.
  split.
  - destruct (five_per_second_per_client false Demo.lower Demo.int
                Demo.str_of_set
                Demo.ENGINE (tl (Py.lit "ta") (Py.lit "amma"))
                (Demo.from "10.0.0.1" 1099)
                {| limiter := ∅; world := Demo.empty_world |}
                (Demo.batch Demo.en_hi [] None None)
                tl_route (Py.lit "10.0.0.1")
                [(tl_route, Demo.from "10.0.0.1" 100);
                 (tl_route, Demo.from "10.0.0.2" 150);
                 (tl_route, Demo.from "10.0.0.1" 200);
                 (rtl_route, Demo.from "10.0.0.1" 250);
                 (tl_route, Demo.from "10.0.0.1" 300);
                 (tl_route, Demo.from "10.0.0.1" 400);
                 (transliterate_route, Demo.from "10.0.0.1" 450);
                 (tl_route, Demo.from "10.0.0.1" 500);
                 (tl_route, Demo.from "10.0.0.1" 1099)] ∅ 100)
      as (_ & _ & Hburst & _).
    rewrite Hburst; [vm_compute; reflexivity | left; reflexivity | |].
    + intros b Hb. rewrite lookup_empty in Hb. discriminate Hb.
    + intros x Hx Hep Hid. revert Hep Hid.
      repeat (apply elem_of_cons in Hx as [->|Hx];
              [intros Hep Hid;
               first [ cbn [fst] in Hep; discriminate Hep
                     | vm_compute in Hid; discriminate Hid
                     | cbn [snd time_ms Demo.from]; lia ] |]).
      apply elem_of_nil in Hx. destruct Hx.
  - destruct (five_per_second_per_client false Demo.lower Demo.int
                Demo.str_of_set
                Demo.ENGINE (tl (Py.lit "ta") (Py.lit "amma"))
                (Demo.from "10.0.0.1" 1099)
                {| limiter := {[ (Py.lit "xlit_api", Py.lit "10.0.0.1")
                                 := {| windowStart := 100; count := 5 |} ]};
                   world := Demo.empty_world |}
                (Demo.batch Demo.en_hi [] None None)
                tl_route (Py.lit "10.0.0.1") [] ∅ 100)
      as (Hserve & _).
    specialize (Hserve (or_introl eq_refl)).
    assert ((allow tl_route (Demo.from "10.0.0.1" 1099)
               {[ (Py.lit "xlit_api", Py.lit "10.0.0.1")
                  := {| windowStart := 100; count := 5 |} ]}).1 = false)
      as Hrej by (vm_compute; reflexivity).
    cbn [endpoint_of limiter] in Hserve. rewrite Hrej in Hserve.
    rewrite Hserve. reflexivity.
Defined.

(** ** The cache key *)



(** ** Suggestions after the first call *)



(** * Further properties of the code *)

(** ** The client identity *)

(** X1. [get_remote_address] never returns the empty string. A non-empty
    [X-Forwarded-For] header is the identity whatever the peer address is;
    an empty header gives the loopback address even when the peer address
    is known; without the header the peer address is used, and the loopback
    address when that is missing or empty. *)
Theorem remote_address_rules rq c s :
  get_remote_address rq <> []
  /\ (x_forwarded_for rq = Some (c :: s) -> get_remote_address rq = c :: s)
  /\ (x_forwarded_for rq = Some [] ->
      get_remote_address rq = Py.lit "127.0.0.1")
  /\ (x_forwarded_for rq = None -> remote_addr rq = Some (c :: s) ->
      get_remote_address rq = c :: s)
  /\ (x_forwarded_for rq = None ->
      remote_addr rq = None ∨ remote_addr rq = Some [] ->
      get_remote_address rq = Py.lit "127.0.0.1").
Proof.
  unfold get_remote_address. repeat split.
  - destruct (x_forwarded_for rq) as [[|? ?]|]; cbn; try discriminate.
    destruct (remote_addr rq) as [[|? ?]|]; discriminate.
  - by intros ->.
  - by intros ->.
  - by intros -> ->.
  - by intros -> [-> | ->].
Qed.

Lemma remote_address_rules_witness :
  get_remote_address
    {| args := []; x_forwarded_for := Some (Py.lit "203.0.113.7");
       remote_addr := Some (Py.lit "10.0.0.1"); utcnow := []; time_ms := 0 |}
  = Py.lit "203.0.113.7"
  /\ get_remote_address
       {| args := []; x_forwarded_for := Some [];
          remote_addr := Some (Py.lit "10.0.0.1"); utcnow := [];
          time_ms := 0 |}
     = Py.lit "127.0.0.1"
  /\ get_remote_address (Demo.from "10.0.0.1" 0) = Py.lit "10.0.0.1"
  /\ get_remote_address (Demo.request []) = Py.lit "127.0.0.1".
Proof.
  split; [|split; [|split]].
  - destruct (remote_address_rules
                {| args := []; x_forwarded_for := Some (Py.lit "203.0.113.7");
                   remote_addr := Some (Py.lit "10.0.0.1"); utcnow := [];
                   time_ms := 0 |} 50 (Py.lit "03.0.113.7"))
      as (_ & H & _).
    apply H. reflexivity.
  - destruct (remote_address_rules
                {| args := []; x_forwarded_for := Some [];
                   remote_addr := Some (Py.lit "10.0.0.1"); utcnow := [];
                   time_ms := 0 |} 0 []) as (_ & _ & H & _).
    apply H. reflexivity.
  - destruct (remote_address_rules (Demo.from "10.0.0.1" 0) 49
                (Py.lit "0.0.0.1")) as (_ & _ & _ & H & _).
    apply H; reflexivity.
  - destruct (remote_address_rules (Demo.request []) 0 [])
      as (_ & _ & _ & _ & H).
    apply H; [reflexivity | left; reflexivity].
Defined.

(** ** The envelope of the word and reverse endpoints *)

Lemma XlitError_value_nonempty e : XlitError_value e <> [].
Proof. by destruct e. Qed.

Lemma finish_response_shape response x :
  success response = false -> result response = result_empty ->
  let e := finish_response response x in
  input_ e = input_ response /\ at_ e = at_ response
  /\ (if success e
      then error e = error response /\ exists l, result e = result_list l
      else error e <> [] /\ result e = result_empty).
Proof.
  intros Hs Hr. destruct x as [err|l]; cbn.
  - rewrite Hs. eauto using XlitError_value_nonempty.
  - eauto.
Qed.

Lemma encodable_envelope_spec e :
  encodable_envelope e = true
  <-> forall l s, result e = result_list l -> s ∈ l -> is_Some (Py.encode s).
Proof.
  unfold encodable_envelope. destruct (result e) as [|l0].
  - split; [intros _ l s H; discriminate H | done].
  - rewrite forallb_forall. split.
    + intros H l s [= <-] Hs. apply list_elem_of_In, H in Hs.
      unfold utf8_encodable in Hs. by destruct (Py.encode s).
    + intros H s Hs. apply list_elem_of_In in Hs.
      unfold utf8_encodable. by destruct (H l0 s eq_refl Hs) as [b ->].
Qed.

(** X2. Whatever the request and whatever the engine does, the word and the
    reverse endpoint end in [jsonify] of an envelope whose [input] is the
    stripped word and whose [at] ends in [" +0000 UTC"], and which is
    either a success (empty [error], a list as [result]) or a failure
    (non-empty [error], the empty string as [result]). The envelope is
    returned with status 200, unless the encoder runs without
    [ensure_ascii] and a candidate of the result cannot be encoded as
    UTF-8: then the handler raises [UnicodeEncodeError]. A failure has no
    candidates and is always returned. *)
Theorem envelope_shape
    ensure_ascii str_lower int_of_str str_of_langs ENGINE rq lang_code word w :
  (exists e w',
     xlit_api ensure_ascii str_lower int_of_str str_of_langs ENGINE rq
       lang_code word w
     = (if ensure_ascii || encodable_envelope e
        then Returned {| http_status := 200; http_body := envelope_json e |}
        else Raised UnicodeEncodeError,
        w')
     /\ input_ e = Py.strip word
     /\ at_ e = utcnow rq ++ Py.lit " +0000 UTC"
     /\ (if success e
         then error e = [] /\ exists l, result e = result_list l
         else error e <> [] /\ result e = result_empty)
     /\ (encodable_envelope e = true
         <-> forall l s, result e = result_list l -> s ∈ l ->
                         is_Some (Py.encode s)))
  /\ (exists e w',
        reverse_xlit_api ensure_ascii int_of_str str_of_langs ENGINE rq
          lang_code word w
        = (if ensure_ascii || encodable_envelope e
           then Returned {| http_status := 200; http_body := envelope_json e |}
           else Raised UnicodeEncodeError,
           w')
        /\ input_ e = Py.strip word
        /\ at_ e = utcnow rq ++ Py.lit " +0000 UTC"
        /\ (if success e
            then error e = [] /\ exists l, result e = result_list l
            else error e <> [] /\ result e = result_empty)
        /\ (encodable_envelope e = true
            <-> forall l s, result e = result_list l -> s ∈ l ->
                            is_Some (Py.encode s))).
Proof.
  assert (forall e w',
            jsonify ensure_ascii e w'
            = (if ensure_ascii || encodable_envelope e
               then Returned {| http_status := 200;
                                http_body := envelope_json e |}
               else Raised UnicodeEncodeError, w')) as Hjson.
  { intros e w'. unfold jsonify.
    by destruct (ensure_ascii || encodable_envelope e). }
  assert (forall x,
            let e := finish_response (initial_response rq word) x in
            input_ e = Py.strip word
            /\ at_ e = utcnow rq ++ Py.lit " +0000 UTC"
            /\ (if success e
                then error e = [] /\ exists l, result e = result_list l
                else error e <> [] /\ result e = result_empty)
            /\ (encodable_envelope e = true
                <-> forall l s, result e = result_list l -> s ∈ l ->
                                is_Some (Py.encode s))) as Hshape.
  { intros x e.
    destruct (finish_response_shape (initial_response rq word) x eq_refl
                eq_refl) as (Hi & Ha & Hs).
    fold e in Hi, Ha, Hs. repeat split; try done;
      by apply encodable_envelope_spec. }
  split.
  - destruct (decide (lang_code ∈ all_supported_langs (ENGINE en2indic)))
      as [H|H].
    + rewrite (xlit_api_supported _ _ _ _ _ _ _ _ _ H). cbv zeta.
      eexists _, _. split; [apply Hjson|]. apply Hshape.
    + rewrite (xlit_api_unsupported _ _ _ _ _ _ _ _ _ H).
      eexists _, w. split.
      * rewrite <- Hjson. symmetry. by apply jsonify_no_result.
      * cbn. repeat split; try done; by apply encodable_envelope_spec.
  - destruct (decide (lang_code ∈ all_supported_langs (ENGINE indic2en)))
      as [H|H].
    + rewrite (reverse_xlit_api_supported _ _ _ _ _ _ _ _ H). cbv zeta.
      eexists _, _. split; [apply Hjson|]. apply Hshape.
    + rewrite (reverse_xlit_api_unsupported _ _ _ _ _ _ _ _ H).
      eexists _, w. split.
      * rewrite <- Hjson. symmetry. by apply jsonify_no_result.
      * cbn. repeat split; try done; by apply encodable_envelope_spec.
Qed.

(** ** Query arguments *)

(** X3. On the word and reverse endpoints the first [num_suggestions] value
    of the query string decides, later ones are ignored; when [int] rejects
    that value the request is served all the same, with the default of 5. *)
Theorem first_num_suggestions_decides
    ensure_ascii str_lower int_of_str str_of_langs ENGINE rq lang_code word w
    pre v more :
  args rq = pre ++ (Py.lit "num_suggestions", v) :: more ->
  Forall (fun kv => kv.1 <> Py.lit "num_suggestions") pre ->
  (lang_code ∈ all_supported_langs (ENGINE en2indic) ->
   exists numerals,
     calls (xlit_api ensure_ascii str_lower int_of_str str_of_langs ENGINE rq
              lang_code word w).2
     = calls w
       ++ [TranslitWord en2indic (take 70 word) lang_code
             (default 5%Z (int_of_str v)) numerals])
  /\ (lang_code ∈ all_supported_langs (ENGINE indic2en) ->
      calls (reverse_xlit_api ensure_ascii int_of_str str_of_langs ENGINE rq
               lang_code word w).2
      = calls w
        ++ [TranslitWord indic2en (take 70 word) lang_code
              (default 5%Z (int_of_str v)) None]).
Proof.
  intros Ha Hpre. split; intros H.
  - rewrite (xlit_api_world _ _ _ _ _ _ _ _ _ H). cbn [calls record_call].
    rewrite (args_get_at _ _ pre v more) by done. eexists. reflexivity.
  - rewrite (reverse_xlit_api_world _ _ _ _ _ _ _ _ H).
    cbn [calls record_call].
    by rewrite (args_get_at _ _ pre v more).
Qed.

Lemma first_num_suggestions_decides_witness :
  (exists numerals,
     calls (xlit_api false Demo.lower Demo.int Demo.str_of_set Demo.ENGINE
              (Demo.request
                 [(Py.lit "transliterate_numerals", Py.lit "TRUE");
                  (Py.lit "num_suggestions", Py.lit "many");
                  (Py.lit "num_suggestions", Py.lit "3")])
              (Py.lit "ta") (Py.lit "amma") Demo.empty_world).2
     = [TranslitWord en2indic (Py.lit "amma") (Py.lit "ta") 5 numerals])
  /\ calls (reverse_xlit_api false Demo.int Demo.str_of_set Demo.ENGINE
             (Demo.request
                [(Py.lit "transliterate_numerals", Py.lit "TRUE");
                 (Py.lit "num_suggestions", Py.lit "many");
                 (Py.lit "num_suggestions", Py.lit "3")])
             (Py.lit "ta") (Py.lit "amma") Demo.empty_world).2
     = [TranslitWord indic2en (Py.lit "amma") (Py.lit "ta") 5 None].
Proof.
  assert (Py.lit "ta" ∈ Demo.langs) as Hta
    by (apply (bool_decide_unpack _); vm_compute; exact I).
  assert (Forall (fun kv : list N * list N => kv.1 <> Py.lit "num_suggestions")
            [(Py.lit "transliterate_numerals", Py.lit "TRUE")]) as Hpre.
  { constructor; [|constructor].
    intros H. vm_compute in H. discriminate H. }
  destruct (first_num_suggestions_decides false Demo.lower Demo.int
              Demo.str_of_set
              Demo.ENGINE
              (Demo.request
                 [(Py.lit "transliterate_numerals", Py.lit "TRUE");
                  (Py.lit "num_suggestions", Py.lit "many");
                  (Py.lit "num_suggestions", Py.lit "3")])
              (Py.lit "ta") (Py.lit "amma") Demo.empty_world
              [(Py.lit "transliterate_numerals", Py.lit "TRUE")]
              (Py.lit "many") [(Py.lit "num_suggestions", Py.lit "3")]
              eq_refl Hpre)
    as (Htl & Hrtl).
  split.
  - destruct (Htl Hta) as (numerals & Hcalls). exists numerals. exact Hcalls.
  - exact (Hrtl Hta).
Defined.

(** ** What one pass of the loop body does, in every case *)

Section EffectFacts.
Variable ENGINE : Direction -> XlitEngine.
Variables (d : Direction) (lang : Language) (lang_code : list N).

Ltac item_cases w :=
  destruct w as [[dbw o] cs];
  unfold ulca_item, bytes_decode, str_encode, engine_translit_word,
    engine_translit_sentence;
  run_world;
  destruct o as [|[] o]; cbn;
  repeat case_match; simplify_eq/=.

(** The calls of one pass: one [get], at most one engine call, and a [set]
    only after an engine call. *)
Lemma ulca_item_counts is_sentence k item w :
  exists new,
    calls (ulca_item ENGINE d lang lang_code is_sentence k item w).2
    = calls w ++ new
    /\ count_calls is_redis_get new = 1%nat
    /\ (count_calls is_redis_set new <= count_calls is_engine_call new)%nat
    /\ (count_calls is_engine_call new <= 1)%nat.
Proof.
  item_cases w; rewrite <- ?app_assoc; cbn; eexists; (split; [reflexivity|]);
    vm_compute; lia.
Qed.

(** The cache after one pass: as before, or with one new entry under the
    item's key, which had none, holding the encoded head of what the engine
    gave; as before whenever the pass raises. *)
Lemma ulca_item_db is_sentence k item w :
  let r := ulca_item ENGINE d lang lang_code is_sentence k item w in
  (db (redis r.2) = db (redis w)
   ∨ (db (redis w) !! cache_key item lang = None
      /\ exists s b,
           Py.encode s = Some b
           /\ db (redis r.2) = <[cache_key item lang := b]> (db (redis w))
           /\ (if is_sentence
               then translit_sentence (ENGINE d) (source item) lang_code
                    = Gives s
               else exists l,
                 translit_word (ENGINE d) (take 32 (source item)) lang_code
                   k None = Gives (s :: l))))
  /\ (forall e, r.1 = Raised e -> db (redis r.2) = db (redis w)).
Proof.
  item_cases w; (split; [|intros; done || discriminate]); eauto 12.
Qed.

(** The item a pass returns. *)
Lemma ulca_item_returns is_sentence k item w item' w' :
  ulca_item ENGINE d lang lang_code is_sentence k item w
  = (Returned item', w') ->
  (source item' = source item
   ∨ (is_sentence = false /\ source item' = take 32 (source item)))
  /\ exists t ts,
       target item' = Some (t :: ts) /\ (is_sentence = true -> ts = []).
Proof.
  revert item' w'. item_cases w; intros item' w' [= <- <-]; cbn;
    (split; [auto|]); eexists _, _; (split; [reflexivity|]);
    done || discriminate.
Qed.

End EffectFacts.

(** ** What the loop does *)

Section LoopEffects.
Variable ENGINE : Direction -> XlitEngine.

Lemma for_each_world body (R : World -> World -> Prop) :
  (forall w, R w w) ->
  (forall w1 w2 w3, R w1 w2 -> R w2 w3 -> R w1 w3) ->
  (forall item w, R w (body item w).2) ->
  forall items w, R w (for_each body items w).2.
Proof.
  intros Hrefl Htrans Hbody. induction items as [|item items IH]; intros w.
  - apply Hrefl.
  - rewrite for_each_cons. pose proof (Hbody item w) as H1.
    destruct (body item w) as [[item'|e] w1]; [|exact H1].
    pose proof (IH w1) as H2.
    destruct (for_each body items w1) as [[rest'|e] w2];
      exact (Htrans _ _ _ H1 H2).
Qed.

Lemma for_each_Forall2 body (P : Item -> Item -> Prop) :
  (forall item w item' w', body item w = (Returned item', w') -> P item item') ->
  forall items w out w',
    for_each body items w = (Returned out, w') -> Forall2 P items out.
Proof.
  intros Hbody. induction items as [|item items IH]; intros w out w'.
  - intros [= <- <-]. constructor.
  - rewrite for_each_cons.
    destruct (body item w) as [[item'|e] w1] eqn:H1; [|discriminate].
    destruct (for_each body items w1) as [[rest'|e] w2] eqn:H2;
      [|discriminate].
    intros [= <- <-]. constructor; eauto.
Qed.

Lemma count_calls_app p l1 l2 :
  count_calls p (l1 ++ l2) = (count_calls p l1 + count_calls p l2)%nat.
Proof. unfold count_calls. by rewrite filter_app, length_app. Qed.

Lemma for_each_counts cfg items : forall w,
  exists new,
    calls (for_each (ulca_body ENGINE cfg) items w).2 = calls w ++ new
    /\ (count_calls is_redis_get new <= length items)%nat
    /\ (count_calls is_redis_set new <= count_calls is_engine_call new)%nat
    /\ (count_calls is_engine_call new <= count_calls is_redis_get new)%nat.
Proof.
  induction items as [|item items IH]; intros w.
  - exists []. cbn. rewrite app_nil_r. repeat split; reflexivity || lia.
  - rewrite for_each_cons, ulca_body_unfold.
    destruct (ulca_item_counts ENGINE (ulca_engine (language cfg)).1
                (language cfg) (ulca_engine (language cfg)).2
                (ulca_is_sentence cfg) (ulca_num_suggestions cfg) item w)
      as (new1 & Hc1 & Hg1 & Hs1 & He1).
    destruct (ulca_item _ _ _ _ _ _ item w) as [[item'|e] w1]; cbn in Hc1.
    + rewrite <- ulca_body_unfold.
      destruct (IH w1) as (new2 & Hc2 & Hg2 & Hs2 & He2).
      exists (new1 ++ new2).
      assert (calls (for_each (ulca_body ENGINE cfg) items w1).2
              = calls w ++ new1 ++ new2) as Hc
        by (by rewrite Hc2, Hc1, app_assoc).
      rewrite !count_calls_app. cbn [length].
      destruct (for_each _ items w1) as [[rest'|e] w2]; cbn in *;
        (split; [done|]); lia.
    + exists new1. cbn [length]. repeat split; [done|lia..].
Qed.

(** The endpoint either leaves the world alone or runs the loop. *)
Lemma ulca_api_world data w :
  (ulca_api ENGINE data w).2 = w
  ∨ exists items cfg,
      input data = Some items /\ config data = Some cfg
      /\ supported_pair ENGINE (language cfg) = true
      /\ (ulca_api ENGINE data w).2
         = (for_each (ulca_body ENGINE cfg) items w).2.
Proof.
  unfold ulca_api.
  destruct (input data) as [items|], (config data) as [cfg|]; auto.
  destruct (supported_pair ENGINE (language cfg)) eqn:Hs; auto.
  right. exists items, cfg. repeat split; try done.
  rewrite bind_unfold. by destruct (for_each _ _ _) as [[out|e] w'].
Qed.

End LoopEffects.

(** ** The checks of the batch endpoint *)

(** X4. A batch body that lacks [input] or [config] is answered with status
    400 before anything else is looked at, and without any effect. Every
    response the batch endpoint returns falls in one of three cases: 400 for
    a missing field, 501 for an unsupported pair, both without effect, or
    200 with an [output] list as long as [input], for a complete body with
    a supported pair. *)
Theorem batch_status_cases ENGINE data w :
  (input data = None ∨ config data = None ->
   ulca_api ENGINE data w
   = (Returned
        {| http_status := 400;
           http_body :=
             status_json 400
               (Py.lit "Ensure `input` and `config` fields missing.") |},
      w))
  /\ (forall resp w',
        ulca_api ENGINE data w = (Returned resp, w') ->
        (http_status resp = 400%Z
         /\ (input data = None ∨ config data = None) /\ w' = w)
        ∨ (http_status resp = 501%Z
           /\ (exists items cfg,
                 input data = Some items /\ config data = Some cfg
                 /\ supported_pair ENGINE (language cfg) = false)
           /\ w' = w)
        ∨ (http_status resp = 200%Z
           /\ exists items cfg out,
                input data = Some items /\ config data = Some cfg
                /\ supported_pair ENGINE (language cfg) = true
                /\ http_body resp = output_json out
                /\ length out = length items)).
Proof.
  split.
  - unfold ulca_api. intros [-> | ->]; [done|]. by destruct (input data).
  - intros resp w'. unfold ulca_api.
    destruct (input data) as [items|] eqn:Hi, (config data) as [cfg|] eqn:Hc;
      try (intros [= <- <-]; left; auto).
    destruct (supported_pair ENGINE (language cfg)) eqn:Hs.
    + rewrite bind_unfold.
      destruct (for_each _ items w) as [[out|e] w1] eqn:Hloop; [|discriminate].
      intros [= <- <-]. right. right. split; [done|].
      exists items, cfg, out. repeat split; try done.
      symmetry. eapply Forall2_length.
      eapply (for_each_Forall2 _ (fun _ _ => True)); [done|exact Hloop].
    + intros [= <- <-]. right. left. eauto 10.
Qed.

Lemma batch_status_cases_witness :
  (ulca_api Demo.ENGINE
     {| input := None;
        config := Some (Demo.settings Demo.en_xx None None) |}
     Demo.empty_world).1
  = Returned
      {| http_status := 400;
         http_body :=
           status_json 400
             (Py.lit "Ensure `input` and `config` fields missing.") |}
  /\ exists items cfg,
       input (Demo.batch Demo.en_xx [Demo.item "amma"] None None)
       = Some items
       /\ config (Demo.batch Demo.en_xx [Demo.item "amma"] None None)
          = Some cfg
       /\ supported_pair Demo.ENGINE (language cfg) = false.
Proof.
  split.
  - destruct (batch_status_cases Demo.ENGINE
                {| input := None;
                   config := Some (Demo.settings Demo.en_xx None None) |}
                Demo.empty_world) as [H _].
    rewrite H; [reflexivity | left; reflexivity].
  - destruct (batch_status_cases Demo.ENGINE
                (Demo.batch Demo.en_xx [Demo.item "amma"] None None)
                Demo.empty_world) as [_ H].
    destruct (H {| http_status := 501;
                   http_body :=
                     status_json 501
                       (Py.lit "The mentioned language-pair is not supported yet.") |}
                Demo.empty_world)
      as [(Hst & _)|[(_ & Hcase & _)|(Hst & _)]];
      [vm_compute; reflexivity | discriminate Hst | exact Hcase
      | discriminate Hst].
Defined.

(** X5. For a pair that passes validation the engine and the language code
    handed to it are: the Roman-to-Indic engine with the target language,
    which that engine lists, when the target is not [en]; the Indic-to-Roman
    engine with the source language when the target is [en], and that
    engine lists the source language unless the pair is [en] to [en],
    accepted because the Roman-to-Indic engine lists [en]. *)
Theorem engine_selection ENGINE lang :
  supported_pair ENGINE lang = true ->
  (targetLanguage lang <> Py.lit "en" ->
   ulca_engine lang = (en2indic, targetLanguage lang)
   /\ sourceLanguage lang = Py.lit "en"
   /\ targetLanguage lang ∈ all_supported_langs (ENGINE en2indic))
  /\ (targetLanguage lang = Py.lit "en" ->
      ulca_engine lang = (indic2en, sourceLanguage lang)
      /\ (sourceLanguage lang ∈ all_supported_langs (ENGINE indic2en)
          ∨ (sourceLanguage lang = Py.lit "en"
             /\ Py.lit "en" ∈ all_supported_langs (ENGINE en2indic)))).
Proof.
  unfold supported_pair, ulca_engine. intros Hs.
  apply orb_prop in Hs as [Hs|Hs]; apply andb_prop in Hs as [H1 H2];
    apply bool_decide_eq_true in H1, H2.
  - split; intros Ht.
    + by rewrite bool_decide_false.
    + rewrite bool_decide_true by done. split; [done|]. right.
      split; [done|]. by rewrite <- Ht.
  - split; intros Ht; [done|]. by rewrite bool_decide_true; auto.
Qed.

Lemma engine_selection_witness :
  ulca_engine Demo.en_hi = (en2indic, Py.lit "hi")
  /\ ulca_engine Demo2.hi_en = (indic2en, Py.lit "hi")
  /\ ulca_engine Demo2.en_en = (indic2en, Py.lit "en")
  /\ Py.lit "en" ∉ all_supported_langs (Demo2.ENGINE_en indic2en).
Proof.
  assert (Py.lit "hi" <> Py.lit "en") as Hne by discriminate.
  split; [|split; [|split]].
  - destruct (engine_selection Demo.ENGINE Demo.en_hi) as [H _];
      [vm_compute; reflexivity|].
    apply H. exact Hne.
  - destruct (engine_selection Demo.ENGINE Demo2.hi_en) as [_ H];
      [vm_compute; reflexivity|].
    apply H. reflexivity.
  - destruct (engine_selection Demo2.ENGINE_en Demo2.en_en) as [_ H];
      [vm_compute; reflexivity|].
    apply H. reflexivity.
  - apply (bool_decide_unpack _). vm_compute. exact I.
Defined.

(** ** The output and the cache of a batch request *)

(** X6. When the batch endpoint answers 200, [output] has one item per
    input item, in the same order. Each output item carries a non-empty
    [target], a single element in sentence mode, and its [source] is the
    input's, or in word mode the first 32 characters of it. *)
Theorem batch_output_shape ENGINE data items cfg out w w' :
  input data = Some items ->
  config data = Some cfg ->
  ulca_api ENGINE data w
  = (Returned {| http_status := 200; http_body := output_json out |}, w') ->
  Forall2
    (fun item o =>
       (source o = source item
        ∨ (ulca_is_sentence cfg = false
           /\ source o = take 32 (source item)))
       /\ exists t ts,
            target o = Some (t :: ts)
            /\ (ulca_is_sentence cfg = true -> ts = []))
    items out.
Proof.
  intros Hi Hc. unfold ulca_api. rewrite Hi, Hc.
  destruct (supported_pair ENGINE (language cfg)); [|discriminate].
  rewrite bind_unfold.
  destruct (for_each _ items w) as [[out'|e] w1] eqn:Hloop; [|discriminate].
  intros [= <- <-].
  eapply for_each_Forall2; [|exact Hloop].
  intros item w0 item' w0'. rewrite ulca_body_unfold.
  apply ulca_item_returns.
Qed.

Lemma batch_output_shape_witness :
  Forall2
    (fun item o =>
       (source o = source item
        ∨ (false = false /\ source o = take 32 (source item)))
       /\ exists t ts,
            target o = Some (t :: ts) /\ (false = true -> ts = []))
    [Demo.item "amma"; Demo.item "bharat"]
    [ {| source := Py.lit "amma";
         target := Some [Py.lit "amma-1"; Py.lit "amma-2"; Py.lit "amma-3"] |};
      {| source := Py.lit "bharat";
         target := Some [Py.lit "bharat-1"; Py.lit "bharat-2";
                         Py.lit "bharat-3"] |} ].
Proof.
  apply (batch_output_shape Demo.ENGINE
           (Demo.batch Demo.en_hi [Demo.item "amma"; Demo.item "bharat"]
              None None)
           [Demo.item "amma"; Demo.item "bharat"]
           (Demo.settings Demo.en_hi None None) _ Demo.empty_world
           (ulca_api Demo.ENGINE
              (Demo.batch Demo.en_hi [Demo.item "amma"; Demo.item "bharat"]
                 None None) Demo.empty_world).2);
    [reflexivity | reflexivity | vm_compute; reflexivity].
Defined.

(** X7. The batch endpoint never removes or replaces a cache entry: an
    entry present before a request is there with the same value after it,
    whatever the request, the engine and the backend do, also when the
    request ends in an exception. *)
Theorem cache_entries_persist ENGINE data w k v :
  db (redis w) !! k = Some v ->
  db (redis (ulca_api ENGINE data w).2) !! k = Some v.
Proof.
  intros Hk. destruct (ulca_api_world ENGINE data w)
    as [-> | (items & cfg & _ & _ & _ & ->)]; [done|].
  revert Hk.
  apply (for_each_world (ulca_body ENGINE cfg)
           (fun w1 w2 => db (redis w1) !! k = Some v ->
                         db (redis w2) !! k = Some v)); [auto | auto |].
  intros item w0 Hk. rewrite ulca_body_unfold.
  destruct (ulca_item_db ENGINE (ulca_engine (language cfg)).1 (language cfg)
              (ulca_engine (language cfg)).2 (ulca_is_sentence cfg)
              (ulca_num_suggestions cfg) item w0)
    as [[-> | (Hnone & s & b & _ & -> & _)] _]; [done|].
  rewrite lookup_insert_ne; [done|]. intros <-. by rewrite Hnone in Hk.
Qed.

Lemma cache_entries_persist_witness :
  db (redis
        (ulca_api Demo.ENGINE
           (Demo.batch Demo.en_hi [Demo.item "amma"; Demo.item "boom"]
              None None)
           {| redis :=
                {| db := {[ cache_key (Demo.item "amma") Demo.en_hi
                            := Py.lit "kept" ]};
                   outages := [] |};
              calls := [] |}).2)
  !! cache_key (Demo.item "amma") Demo.en_hi
  = Some (Py.lit "kept").
Proof.
  apply (cache_entries_persist Demo.ENGINE). vm_compute. reflexivity.
Defined.

(** X8. Failures are never cached. A pass of the loop body that raises, be
    it through the engine, a codec or the backend, leaves the cache
    contents as they were; and with an engine that never gives a value no
    batch request changes the cache. *)
Theorem failures_are_not_cached ENGINE cfg item data w :
  (forall e w',
     ulca_body ENGINE cfg item w = (Raised e, w') ->
     db (redis w') = db (redis w))
  /\ ((forall d text lang_code k numerals c l,
         translit_word (ENGINE d) text lang_code k numerals <> Gives (c :: l)) ->
      (forall d text lang_code s,
         translit_sentence (ENGINE d) text lang_code <> Gives s) ->
      db (redis (ulca_api ENGINE data w).2) = db (redis w)).
Proof.
  split.
  - intros e w' Hr. rewrite ulca_body_unfold in Hr.
    destruct (ulca_item_db ENGINE (ulca_engine (language cfg)).1 (language cfg)
                (ulca_engine (language cfg)).2 (ulca_is_sentence cfg)
                (ulca_num_suggestions cfg) item w) as [_ H].
    rewrite Hr in H. by apply (H e).
  - intros Hword Hsent.
    destruct (ulca_api_world ENGINE data w)
      as [-> | (items & cfg' & _ & _ & _ & ->)]; [done|].
    apply (for_each_world (ulca_body ENGINE cfg')
             (fun w1 w2 => db (redis w2) = db (redis w1)));
      [done | congruence |].
    intros item0 w0. rewrite ulca_body_unfold.
    destruct (ulca_item_db ENGINE (ulca_engine (language cfg')).1
                (language cfg') (ulca_engine (language cfg')).2
                (ulca_is_sentence cfg') (ulca_num_suggestions cfg') item0 w0)
      as [[-> | (_ & s & b & _ & _ & Heng)] _]; [done|].
    destruct (ulca_is_sentence cfg').
    + by apply Hsent in Heng.
    + destruct Heng as (l & Heng). by apply Hword in Heng.
Qed.

Lemma failures_are_not_cached_witness :
  db (redis
        (ulca_api Demo.ENGINE_down
           (Demo.batch Demo.en_hi [Demo.item "amma"] None None)
           Demo.empty_world).2) = ∅
  /\ db (redis
           (ulca_body Demo.ENGINE (Demo.settings Demo.en_hi None None)
              (Demo.item "boom") Demo.empty_world).2) = ∅.
Proof.
  split.
  - destruct (failures_are_not_cached Demo.ENGINE_down
                (Demo.settings Demo.en_hi None None) (Demo.item "amma")
                (Demo.batch Demo.en_hi [Demo.item "amma"] None None)
                Demo.empty_world) as [_ H].
    rewrite H; [reflexivity | discriminate | discriminate].
  - destruct (failures_are_not_cached Demo.ENGINE
                (Demo.settings Demo.en_hi None None) (Demo.item "boom")
                (Demo.batch Demo.en_hi [] None None)
                Demo.empty_world) as [H _].
    rewrite (H EngineException
               (ulca_body Demo.ENGINE (Demo.settings Demo.en_hi None None)
                  (Demo.item "boom") Demo.empty_world).2);
      [reflexivity | vm_compute; reflexivity].
Defined.

(** X9. A batch request asks the cache at most once per input item, calls
    the engine at most once per cache look-up, and writes to the cache at
    most once per engine call, whatever happens on the way. *)
Theorem batch_call_bounds ENGINE data w :
  exists new,
    calls (ulca_api ENGINE data w).2 = calls w ++ new
    /\ (count_calls is_redis_get new <= length (default [] (input data)))%nat
    /\ (count_calls is_engine_call new <= count_calls is_redis_get new)%nat
    /\ (count_calls is_redis_set new <= count_calls is_engine_call new)%nat.
Proof.
  destruct (ulca_api_world ENGINE data w)
    as [-> | (items & cfg & -> & _ & _ & ->)].
  - exists []. rewrite app_nil_r. cbn. repeat split; reflexivity || lia.
  - destruct (for_each_counts ENGINE cfg items w)
      as (new & Hc & Hg & Hs & He).
    exists new. cbn. auto.
Qed.

(** X10. With the backend reachable, every cache entry decodable, and an
    engine that answers every call with a non-empty, encodable result, a
    complete batch request for a supported pair is answered with status
    200 and one output item per input item. *)
Theorem healthy_batch_succeeds ENGINE data items cfg w :
  input data = Some items ->
  config data = Some cfg ->
  supported_pair ENGINE (language cfg) = true ->
  outages (redis w) = [] ->
  (forall k b, db (redis w) !! k = Some b -> is_Some (Py.decode b)) ->
  (forall d text lang_code k,
     exists c l,
       translit_word (ENGINE d) text lang_code k None = Gives (c :: l)
       /\ is_Some (Py.encode c)) ->
  (forall d text lang_code,
     exists s,
       translit_sentence (ENGINE d) text lang_code = Gives s
       /\ is_Some (Py.encode s)) ->
  exists out w',
    ulca_api ENGINE data w
    = (Returned {| http_status := 200; http_body := output_json out |}, w')
    /\ length out = length items.
Proof.
  intros Hi Hc Hs Hup Hdec Hword Hsent.
  rewrite (ulca_api_loop _ _ _ _ _ Hi Hc Hs). clear Hi Hc Hs.
  enough (exists out w',
            for_each (ulca_body ENGINE cfg) items w = (Returned out, w')
            /\ length out = length items) as (out & w' & -> & Hlen)
    by (by exists out, w').
  revert w Hup Hdec. induction items as [|item items IH]; intros w Hup Hdec.
  - by exists [], w.
  - rewrite for_each_cons, ulca_body_unfold.
    assert (exists item' w1,
              ulca_item ENGINE (ulca_engine (language cfg)).1 (language cfg)
                (ulca_engine (language cfg)).2 (ulca_is_sentence cfg)
                (ulca_num_suggestions cfg) item w = (Returned item', w1)
              /\ outages (redis w1) = []
              /\ (forall k b, db (redis w1) !! k = Some b ->
                              is_Some (Py.decode b)))
      as (item' & w1 & -> & Hup1 & Hdec1).
    { destruct (db (redis w) !! cache_key item (language cfg)) as [b|] eqn:Hdb.
      - destruct (Hdec _ _ Hdb) as [v Hv].
        rewrite (ulca_item_hit _ _ _ _ _ _ _ _ b v) by done.
        by eexists _, _.
      - destruct (ulca_is_sentence cfg).
        + destruct (Hsent (ulca_engine (language cfg)).1 (source item)
                      (ulca_engine (language cfg)).2) as (s & Hg & [b Hb]).
          rewrite (ulca_item_miss_sentence _ _ _ _ _ _ _ s b) by done.
          eexists _, _. split; [done|]. split; [done|]. cbn.
          intros k b' [[_ <-]|[_ Hk]]%lookup_insert_Some; [|eauto].
          rewrite (decode_encode _ _ Hb). eauto.
        + destruct (Hword (ulca_engine (language cfg)).1
                      (take 32 (source item)) (ulca_engine (language cfg)).2
                      (ulca_num_suggestions cfg)) as (c & l & Hg & [b Hb]).
          rewrite (ulca_item_miss_word _ _ _ _ _ _ _ c l b) by done.
          eexists _, _. split; [done|]. split; [done|]. cbn.
          intros k b' [[_ <-]|[_ Hk]]%lookup_insert_Some; [|eauto].
          rewrite (decode_encode _ _ Hb). eauto. }
    rewrite <- ulca_body_unfold.
    destruct (IH w1 Hup1 Hdec1) as (out & w' & -> & Hlen).
    exists (item' :: out), w'. cbn. by rewrite Hlen.
Qed.

Lemma healthy_batch_succeeds_witness :
  exists out w',
    ulca_api Demo2.ENGINE_ok
      (Demo.batch Demo.en_hi [Demo.item "amma"; Demo.item "boom"] None None)
      Demo.empty_world
    = (Returned {| http_status := 200; http_body := output_json out |}, w')
    /\ length out = 2%nat.
Proof.
  apply (healthy_batch_succeeds Demo2.ENGINE_ok
           (Demo.batch Demo.en_hi [Demo.item "amma"; Demo.item "boom"]
              None None)
           [Demo.item "amma"; Demo.item "boom"]
           (Demo.settings Demo.en_hi None None) Demo.empty_world);
    try reflexivity.
  - intros k b Hk. cbn in Hk. rewrite lookup_empty in Hk. discriminate Hk.
  - intros d text lang_code k. exists (Py.lit "ok"), [Py.lit "okay"].
    split; [reflexivity | eexists; reflexivity].
  - intros d text lang_code. exists (Py.lit "ok").
    split; [reflexivity | eexists; reflexivity].
Defined.

(** X11. Two items with the same source in one word-mode batch are treated
    differently: the first, a miss, gets the engine's whole ranked list and
    fills the cache; the second finds that entry and gets the head of the
    list alone, with its source left uncut. The engine is called once. *)
Theorem repeated_source_in_one_batch ENGINE cfg item1 item2 w c l b :
  supported_pair ENGINE (language cfg) = true ->
  ulca_is_sentence cfg = false ->
  source item2 = source item1 ->
  outages (redis w) = [] ->
  db (redis w) !! cache_key item1 (language cfg) = None ->
  translit_word (ENGINE (ulca_engine (language cfg)).1)
    (take 32 (source item1)) (ulca_engine (language cfg)).2
    (ulca_num_suggestions cfg) None = Gives (c :: l) ->
  Py.encode c = Some b ->
  ulca_api ENGINE {| input := Some [item1; item2]; config := Some cfg |} w
  = (Returned
       {| http_status := 200;
          http_body :=
            output_json
              [ {| source := take 32 (source item1);
                   target := Some (c :: l) |};
                {| source := source item2; target := Some [c] |} ] |},
     {| redis :=
          {| db := <[cache_key item1 (language cfg) := b]> (db (redis w));
             outages := [] |};
        calls :=
          calls w
          ++ [RedisGet (cache_key item1 (language cfg));
              TranslitWord (ulca_engine (language cfg)).1
                (take 32 (source item1)) (ulca_engine (language cfg)).2
                (ulca_num_suggestions cfg) None;
              RedisSet (cache_key item1 (language cfg)) b;
              RedisGet (cache_key item1 (language cfg))] |}).
Proof.
  intros Hs Hm Hsrc Hup Hdb Heng Henc.
  rewrite (ulca_api_loop _ _ [item1; item2] cfg) by done.
  rewrite for_each_cons, ulca_body_unfold, Hm.
  rewrite (ulca_item_miss_word _ _ _ _ _ _ _ c l b) by done.
  rewrite for_each_single.
  rewrite (ulca_item_hit _ _ _ _ _ _ item2 _ b c).
  - rewrite (cache_key_source item1 item2) by done.
    unfold record_call, set_target. cbn [redis calls].
    rewrite <- app_assoc. reflexivity.
  - done.
  - cbn. rewrite (cache_key_source item1 item2) by done.
    apply lookup_insert_eq.
  - by apply decode_encode.
Qed.

Lemma repeated_source_in_one_batch_witness :
  (ulca_api Demo.ENGINE
     (Demo.batch Demo.en_hi [Demo.item "amma"; Demo.item "amma"] None None)
     Demo.empty_world).1
  = Returned
      {| http_status := 200;
         http_body :=
           output_json
             [ {| source := Py.lit "amma";
                  target := Some [Py.lit "amma-1"; Py.lit "amma-2";
                                  Py.lit "amma-3"] |};
               {| source := Py.lit "amma";
                  target := Some [Py.lit "amma-1"] |} ] |}.
Proof.
  change (Demo.batch Demo.en_hi [Demo.item "amma"; Demo.item "amma"] None None)
    with {| input := Some [Demo.item "amma"; Demo.item "amma"];
            config := Some (Demo.settings Demo.en_hi None None) |}.
  rewrite (repeated_source_in_one_batch Demo.ENGINE
             (Demo.settings Demo.en_hi None None) (Demo.item "amma")
             (Demo.item "amma") Demo.empty_world (Py.lit "amma-1")
             [Py.lit "amma-2"; Py.lit "amma-3"] (Py.lit "amma-1"));
    reflexivity.
Defined.

(** ** Codecs at the cache boundary *)

Lemma hexdigit_printable d : d < 16 -> 32 <= Py.hexdigit d /\ Py.hexdigit d <= 126.
Proof. unfold Py.hexdigit. destruct (N.ltb_spec d 10); lia. Qed.

Lemma u_escape_printable n :
  Forall (fun c => 32 <= c /\ c <= 126) (Py.u_escape n).
Proof.
  unfold Py.u_escape, Py.hex4.
  repeat (constructor; [first [lia | apply hexdigit_printable, N.mod_lt; lia]|]).
  constructor.
Qed.

Lemma escape_char_printable c :
  Forall (fun c => 32 <= c /\ c <= 126) (Py.escape_char c).
Proof.
  unfold Py.escape_char. case_tests; cbn [andb];
    first [ apply u_escape_printable
          | apply Forall_app; split; apply u_escape_printable
          | repeat (constructor; [lia|]); constructor ].
Qed.

Lemma dumps_str_printable s :
  Forall (fun c => 32 <= c /\ c <= 126) (Py.dumps_str s).
Proof.
  unfold Py.dumps_str. constructor; [lia|]. apply Forall_app. split.
  - induction s as [|c s IH]; cbn; [constructor|].
    apply Forall_app. auto using escape_char_printable.
  - constructor; [lia|constructor].
Qed.

Lemma encode_ascii s :
  Forall (fun c => 32 <= c /\ c <= 126) s -> Py.encode s = Some s.
Proof.
  induction 1 as [|c s [Hc1 Hc2] Hs IH]; [done|].
  cbn [Py.encode]. rewrite IH. unfold Py.encode_char.
  destruct (N.ltb_spec c 128); [done|lia].
Qed.

(** X12. Whatever code points the source and the language codes hold, the
    cache key consists of printable ASCII characters only, so encoding it
    for the backend cannot fail and gives the same octets. *)
Theorem cache_key_is_ascii item lang :
  Forall (fun c => 32 <= c /\ c <= 126) (cache_key item lang)
  /\ Py.encode (cache_key item lang) = Some (cache_key item lang).
Proof.
  assert (Forall (fun c => 32 <= c /\ c <= 126) (cache_key item lang)) as H.
  { unfold cache_key, Py.json_dumps. cbn [fmap list_fmap Py.join].
    constructor; [lia|].
    repeat (apply Forall_app; split);
      auto using dumps_str_printable;
      repeat (constructor; [lia|]); constructor. }
  split; [exact H | by apply encode_ascii].
Qed.

(** X13. Codec failures end the pass of the loop body. A cache entry that
    is not valid UTF-8 makes the item raise [UnicodeDecodeError] right after
    the [get], without the engine being asked; a first candidate (or a
    sentence) that UTF-8 cannot encode makes the item raise
    [UnicodeEncodeError] after the engine call, and nothing is written. *)
Theorem codec_failures ENGINE cfg item w b :
  (outages (redis w) = [] ->
   db (redis w) !! cache_key item (language cfg) = Some b ->
   Py.decode b = None ->
   ulca_body ENGINE cfg item w
   = (Raised UnicodeDecodeError,
      record_call (RedisGet (cache_key item (language cfg))) w))
  /\ (outages (redis w) = [] ->
      db (redis w) !! cache_key item (language cfg) = None ->
      (if ulca_is_sentence cfg
       then exists s,
         translit_sentence (ENGINE (ulca_engine (language cfg)).1)
           (source item) (ulca_engine (language cfg)).2 = Gives s
         /\ Py.encode s = None
       else exists c l,
         translit_word (ENGINE (ulca_engine (language cfg)).1)
           (take 32 (source item)) (ulca_engine (language cfg)).2
           (ulca_num_suggestions cfg) None = Gives (c :: l)
         /\ Py.encode c = None) ->
      exists w',
        ulca_body ENGINE cfg item w = (Raised UnicodeEncodeError, w')
        /\ redis w' = redis w
        /\ exists ev,
             is_engine_call ev = true
             /\ calls w'
                = calls w
                  ++ [RedisGet (cache_key item (language cfg)); ev]).
Proof.
  split.
  - intros Hup Hdb Hdec. rewrite ulca_body_unfold. unfold ulca_item.
    rewrite bind_unfold, (r_get_up _ _ Hup), Hdb.
    unfold bytes_decode. by rewrite Hdec.
  - intros Hup Hdb Heng. rewrite ulca_body_unfold. unfold ulca_item.
    rewrite bind_unfold, (r_get_up _ _ Hup), Hdb.
    destruct w as [[dbw o] cs]. cbn in Hup, Hdb. subst o.
    unfold str_encode, engine_translit_word, engine_translit_sentence.
    destruct (ulca_is_sentence cfg).
    + destruct Heng as (s & -> & Henc). run_world. rewrite Henc.
      eexists. split; [reflexivity|]. split; [reflexivity|].
      eexists. split; [|reflexivity]. reflexivity.
    + destruct Heng as (c & l & Heng & Henc). run_world.
      cbn [source target]. rewrite Heng. cbn. rewrite Henc.
      eexists. split; [reflexivity|]. split; [reflexivity|].
      eexists. split; [|rewrite <- ?app_assoc; reflexivity]. reflexivity.
Qed.

Lemma codec_failures_witness :
  (ulca_body Demo.ENGINE (Demo.settings Demo.en_hi None None)
     (Demo.item "amma")
     {| redis :=
          {| db := {[ cache_key (Demo.item "amma") Demo.en_hi := [0xFF] ]};
             outages := [] |};
        calls := [] |}).1
  = Raised UnicodeDecodeError
  /\ exists w',
       ulca_body Demo2.ENGINE_odd (Demo.settings Demo.en_hi None None)
         (Demo.item "amma") Demo.empty_world
       = (Raised UnicodeEncodeError, w')
       /\ redis w' = redis Demo.empty_world.
Proof.
  split.
  - destruct (codec_failures Demo.ENGINE (Demo.settings Demo.en_hi None None)
                (Demo.item "amma")
                {| redis :=
                     {| db := {[ cache_key (Demo.item "amma") Demo.en_hi
                                 := [0xFF] ]};
                        outages := [] |};
                   calls := [] |} [0xFF]) as [H _].
    rewrite H; [reflexivity | reflexivity | vm_compute; reflexivity
               | reflexivity].
  - destruct (codec_failures Demo2.ENGINE_odd
                (Demo.settings Demo.en_hi None None) (Demo.item "amma")
                Demo.empty_world []) as [_ H].
    destruct H as (w' & Hr & Hredis & _); [reflexivity | reflexivity | |].
    + exists [0xD800], []. split; reflexivity.
    + exists w'. split; [exact Hr | exact Hredis].
Defined.

(** ** The language list *)

Lemma str_le_total a : forall b, Is_true (str_le a b) ∨ Is_true (str_le b a).
Proof.
  induction a as [|x a IH]; intros [|y b]; cbn; auto.
  destruct (N.ltb_spec x y), (N.ltb_spec y x); cbn; auto.
Qed.

Lemma str_le_trans a : forall b c,
  Is_true (str_le a b) -> Is_true (str_le b c) -> Is_true (str_le a c).
Proof.
  induction a as [|x a IH]; intros [|y b] [|z c]; cbn; auto; try done.
  destruct (N.ltb_spec x y), (N.ltb_spec y x), (N.ltb_spec y z),
    (N.ltb_spec z y), (N.ltb_spec x z), (N.ltb_spec z x);
    cbn; auto; try done; try lia.
  apply IH.
Qed.

#[local] Instance str_le_Total : Total (fun a b => Is_true (str_le a b)).
Proof. intros a b. apply str_le_total. Qed.

#[local] Instance str_le_Transitive :
  Transitive (fun a b => Is_true (str_le a b)).
Proof. intros a b c. apply str_le_trans. Qed.

Section LanguageFacts.
Variable tables : LangTables.
Variable ENGINE : Direction -> XlitEngine.

Lemma exposed_lang_Some lang_code e :
  exposed_lang tables lang_code = Some e ->
  ExposedLang.LangCode e = lang_code
  /\ ExposedLang.Identifier e = lang_code
  /\ LANG_CODE_TO_DISPLAY_NAME tables !! lang_code
     = Some (ExposedLang.DisplayName e)
  /\ LANG_CODE_TO_SCRIPT_CODE tables !! lang_code
     = Some (ExposedLang.ScriptCode e)
  /\ (ExposedLang.Direction e = Py.lit "rtl"
      <-> lang_code ∈ RTL_LANG_CODES tables)
  /\ (ExposedLang.Direction e = Py.lit "ltr"
      <-> lang_code ∉ RTL_LANG_CODES tables)
  /\ ExposedLang.GoogleFont e = GOOGLE_FONTS tables !! lang_code
  /\ ExposedLang.FallbackFont e = FALLBACK_FONTS tables !! lang_code.
Proof.
  unfold exposed_lang.
  destruct (LANG_CODE_TO_DISPLAY_NAME tables !! lang_code) as [dn|];
    [|discriminate].
  destruct (LANG_CODE_TO_SCRIPT_CODE tables !! lang_code) as [sc|];
    [|discriminate].
  cbn. intros [= <-]. cbn. repeat split; try done.
  all: destruct (decide (lang_code ∈ RTL_LANG_CODES tables)) as [Hin|Hout].
  all: rewrite ?(bool_decide_true _ Hin), ?(bool_decide_false _ Hout).
  all: try done; try discriminate.
Qed.

Lemma exposed_codes l :
  EXPOSED_LANGS tables ENGINE = Some l ->
  ExposedLang.LangCode <$> l = sorted_langs ENGINE.
Proof.
  unfold EXPOSED_LANGS. intros H%mapM_Some.
  induction H as [|code e codes l He _ IH]; [done|].
  cbn. f_equal; [|done]. by apply exposed_lang_Some in He as [-> _].
Qed.

End LanguageFacts.

(** X14. When the module loads, [EXPOSED_LANGS] has exactly one entry per
    language of the Roman-to-Indic engine, in ascending order of the code.
    In each entry [Identifier] repeats [LangCode], the display name and
    script code are the ones of the tables, [Direction] is ["rtl"] exactly
    for the codes in [RTL_LANG_CODES] and ["ltr"] for the others, and the
    two fonts are the tables' entries, absent when a table has none. *)
Theorem exposed_langs_listing tables ENGINE l :
  EXPOSED_LANGS tables ENGINE = Some l ->
  (forall code,
     code ∈ ExposedLang.LangCode <$> l
     <-> code ∈ all_supported_langs (ENGINE en2indic))
  /\ NoDup (ExposedLang.LangCode <$> l)
  /\ StronglySorted (fun a b => Is_true (str_le a b))
       (ExposedLang.LangCode <$> l)
  /\ Forall
       (fun e =>
          ExposedLang.Identifier e = ExposedLang.LangCode e
          /\ LANG_CODE_TO_DISPLAY_NAME tables !! ExposedLang.LangCode e
             = Some (ExposedLang.DisplayName e)
          /\ LANG_CODE_TO_SCRIPT_CODE tables !! ExposedLang.LangCode e
             = Some (ExposedLang.ScriptCode e)
          /\ (ExposedLang.Direction e = Py.lit "rtl"
              <-> ExposedLang.LangCode e ∈ RTL_LANG_CODES tables)
          /\ (ExposedLang.Direction e = Py.lit "ltr"
              <-> ExposedLang.LangCode e ∉ RTL_LANG_CODES tables)
          /\ ExposedLang.GoogleFont e
             = GOOGLE_FONTS tables !! ExposedLang.LangCode e
          /\ ExposedLang.FallbackFont e
             = FALLBACK_FONTS tables !! ExposedLang.LangCode e)
       l.
Proof.
  intros Hl. rewrite (exposed_codes _ _ _ Hl). unfold sorted_langs.
  repeat split.
  - rewrite merge_sort_Permutation. apply elem_of_elements.
  - rewrite merge_sort_Permutation. apply elem_of_elements.
  - rewrite merge_sort_Permutation. apply NoDup_elements.
  - apply (StronglySorted_merge_sort _).
  - unfold EXPOSED_LANGS in Hl. apply mapM_Some in Hl.
    induction Hl as [|code e codes l He _ IH]; constructor; [|done].
    apply exposed_lang_Some in He
      as (-> & H2 & H3 & H4 & H5 & H6 & H7 & H8).
    by rewrite H2.
Qed.

(** X15. Building [EXPOSED_LANGS] raises [KeyError], so that the module
    does not load, exactly when some language of the Roman-to-Indic engine
    has no display name or no script code; a language without a font entry
    is no error. *)
Theorem exposed_langs_key_error tables ENGINE :
  EXPOSED_LANGS tables ENGINE = None
  <-> exists code,
        code ∈ all_supported_langs (ENGINE en2indic)
        /\ (LANG_CODE_TO_DISPLAY_NAME tables !! code = None
            ∨ LANG_CODE_TO_SCRIPT_CODE tables !! code = None).
Proof.
  rewrite eq_None_not_Some. unfold EXPOSED_LANGS.
  rewrite mapM_is_Some, <- Exists_Forall_neg
    by (intros x; cbn; destruct (exposed_lang tables x);
        [left; eauto | right; intros [? ?]; discriminate]).
  rewrite Exists_exists. unfold sorted_langs.
  split.
  - intros (code & Hin & Hnone). exists code.
    rewrite merge_sort_Permutation, elem_of_elements in Hin.
    split; [done|]. cbn in Hnone. unfold exposed_lang in Hnone.
    destruct (LANG_CODE_TO_DISPLAY_NAME tables !! code); [|by left].
    destruct (LANG_CODE_TO_SCRIPT_CODE tables !! code); [|by right].
    destruct Hnone. by eexists.
  - intros (code & Hin & Hnone). exists code.
    rewrite merge_sort_Permutation, elem_of_elements. split; [done|].
    cbn. unfold exposed_lang. intros [e He]. revert He.
    destruct Hnone as [-> | ->]; [done|].
    by destruct (LANG_CODE_TO_DISPLAY_NAME tables !! code).
Qed.

Lemma exposed_langs_key_error_witness :
  EXPOSED_LANGS Demo2.tables Demo2.ENGINE_kn = None
  /\ is_Some (EXPOSED_LANGS Demo2.tables Demo2.ENGINE_ur).
Proof.
  split.
  - apply exposed_langs_key_error. exists (Py.lit "kn"). split.
    + apply (bool_decide_unpack _). vm_compute. exact I.
    + left. vm_compute. reflexivity.
  - destruct (EXPOSED_LANGS Demo2.tables Demo2.ENGINE_ur) as [l|] eqn:H;
      [by eexists|].
    apply exposed_langs_key_error in H as (code & Hin & Hnone).
    exfalso. revert Hin Hnone. unfold Demo2.ENGINE_ur, Demo2.engine_ur. cbn.
    rewrite !elem_of_union, !elem_of_singleton.
    intros [[-> | ->] | ->] [H | H]; vm_compute in H; discriminate H.
Defined.

Lemma exposed_langs_listing_witness :
  exists l,
    EXPOSED_LANGS Demo2.tables Demo2.ENGINE_ur = Some l
    /\ ExposedLang.LangCode <$> l = [Py.lit "hi"; Py.lit "ta"; Py.lit "ur"]
    /\ StronglySorted (fun a b => Is_true (str_le a b))
         (ExposedLang.LangCode <$> l).
Proof.
  eexists. split; [vm_compute; reflexivity|]. split; [reflexivity|].
  eapply (exposed_langs_listing Demo2.tables Demo2.ENGINE_ur).
  vm_compute. reflexivity.
Defined.

(** X16. [/languages] answers with the loaded list whatever the cookies
    are, and issues the [xlit_user_id] cookie exactly when the request
    carries none: a cookie that is present, even with an empty value, is
    never replaced. An issued cookie holds the fresh identifier, lasts 365
    days and is marked secure and HTTP-only. *)
Theorem languages_cookie exposed cookies uuid4_hex :
  languages_json (supported_languages exposed cookies uuid4_hex) = exposed
  /\ (set_cookie (supported_languages exposed cookies uuid4_hex) = None
      <-> is_Some (cookies !! Py.lit "xlit_user_id"))
  /\ (forall c,
        set_cookie (supported_languages exposed cookies uuid4_hex) = Some c ->
        cookies !! Py.lit "xlit_user_id" = None
        /\ Cookie.key c = Py.lit "xlit_user_id"
        /\ Cookie.value c = uuid4_hex
        /\ Cookie.max_age c = 31536000%Z
        /\ Cookie.secure c = true /\ Cookie.httponly c = true).
Proof.
  unfold supported_languages. cbn [languages_json set_cookie].
  destruct (decide (Py.lit "xlit_user_id" ∈ dom cookies)) as [Hin|Hout].
  - rewrite bool_decide_false by (intros H; exact (H Hin)).
    apply elem_of_dom in Hin. split; [done|]. split; [done|].
    intros c Hc. discriminate Hc.
  - rewrite bool_decide_true by done.
    apply not_elem_of_dom in Hout. split; [done|]. split.
    + split; [discriminate|]. intros [x Hx]. rewrite Hout in Hx.
      discriminate Hx.
    + intros c [= <-]. done.
Qed.

Lemma languages_cookie_witness :
  set_cookie (supported_languages [] {[ Py.lit "xlit_user_id" := [] ]} (Py.lit "0f"))
  = None
  /\ exists c,
       set_cookie (supported_languages [] ∅ (Py.lit "0f")) = Some c
       /\ Cookie.value c = Py.lit "0f".
Proof.
  split.
  - destruct (languages_cookie [] {[ Py.lit "xlit_user_id" := [] ]}
                (Py.lit "0f")) as (_ & H & _).
    apply H. exists []. apply lookup_singleton_eq.
  - eexists. split; [reflexivity|].
    destruct (languages_cookie [] ∅ (Py.lit "0f")) as (_ & _ & H).
    eapply H. reflexivity.
Defined.
